(** * ISS tracker (iss_tkintermapview.py): a shallow embedding and its properties

    The program polls a web API for the position of the International Space
    Station from a worker thread and shows it on a Tk map.  The embedding
    follows the source method by method.  Python code becomes code of a
    state-and-exception monad over the attributes of the [ISSTracker] object;
    every call that leaves the program (requests, the toolkit, print) is
    answered by an abstract environment, and recorded in a log together with
    the sleeps. *)

From Stdlib Require Import ZArith List String Bool Lia PrimFloat FloatOps SpecFloat.
Import ListNotations.
Local Open Scope string_scope.
Local Open Scope Z_scope.
Local Set Warnings "-register-all".

(** ** Python values, exceptions and results *)

(** The exception classes the calls of the program can raise.  All of them
    derive from [Exception], so [except Exception] catches each one. *)
Inductive exn : Set :=
| ConnectionError      (* requests.get: DNS, refused connection, ... *)
| ReadTimeout          (* requests.get *)
| HTTPError            (* response.raise_for_status() *)
| JSONDecodeError      (* response.json() *)
| AttributeError       (* missing attribute or method *)
| TypeError            (* float(None), wrong number of arguments *)
| ValueError           (* float("abc"), sleep(-1), print on a closed stdout *)
| OverflowError        (* float(10 ** 400), sleep(10 ** 10) *)
| TclError             (* the toolkit *)
| RuntimeError.        (* the toolkit *)

Inductive result (A : Type) : Type :=
| Ok (a : A)
| Raise (e : exn).
Arguments Ok {A} a.
Arguments Raise {A} e.

(** What [response.json()] can return. A dict keeps its items as an
    association list; a key is looked up from the front. *)
Inductive pyval : Type :=
| PyNone
| PyBool (b : bool)
| PyInt (z : Z)
| PyFloat (f : float)
| PyStr (s : string)
| PyList (l : list pyval)
| PyDict (d : list (string * pyval)).

(** [float] of an int rounds to the nearest binary64, ties to even, and raises
    OverflowError ([None]) past the largest finite one. *)
Definition float_of_int (z : Z) : option float :=
  match binary_normalize 53 1024 z 0 false with
  | S754_infinity _ => None
  | sf => Some (SF2Prim sf)
  end.

(** [float] of a string parses a decimal literal; the parser is the
    interpreter's ([None] is ValueError). *)
Class Builtins : Type := {
  float_of_str : string -> option float
}.

(** [float(v)] *)
Definition py_float `{Builtins} (v : pyval) : result float :=
  match v with
  | PyFloat f => Ok f
  | PyInt z => match float_of_int z with Some f => Ok f | None => Raise OverflowError end
  | PyBool b => Ok (if b then 1%float else 0%float)
  | PyStr s => match float_of_str s with Some f => Ok f | None => Raise ValueError end
  | PyNone | PyList _ | PyDict _ => Raise TypeError
  end.

Fixpoint dict_get (d : list (string * pyval)) (key : string) : pyval :=
  match d with
  | [] => PyNone
  | (k, v) :: rest => if String.eqb k key then v else dict_get rest key
  end.

(** [position.get(key)]: only a dict has the method. *)
Definition py_get (position : pyval) (key : string) : result pyval :=
  match position with
  | PyDict d => Ok (dict_get d key)
  | _ => Raise AttributeError
  end.

(** ** The HTTP response *)

(** A [requests.Response] as far as the program looks at it: the status
    code, the body decoded as JSON ([None] when the decoder gives up) and the
    exception the decoder then raises: JSONDecodeError for text that is not
    JSON, a plain ValueError for an integer literal past the interpreter's
    digit limit. *)
Record Response : Type := {
  status_code : Z;
  body : option pyval;
  decode_error : exn
}.

(** [response.raise_for_status()]: HTTPError for a 4xx or 5xx status. *)
Definition raise_for_status (response : Response) : result unit :=
  if (400 <=? status_code response) && (status_code response <? 600)
  then Raise HTTPError else Ok tt.

(** [response.json()] *)
Definition json (response : Response) : result pyval :=
  match body response with
  | Some v => Ok v
  | None => Raise (decode_error response)
  end.

Definition URL : string := "https://api.wheretheiss.at/v1/satellites/25544?units=miles".

(** ** The toolkit and the environment *)

Inductive label : Set := lbl_lat | lbl_lon | lbl_count | lbl_tile_server.

(** The bound methods the program hands to the toolkit as callbacks. *)
Inductive method : Set := m_quit | m_update_marker_position | m_change_map.

(** A marker object of the map, known by its identity only. *)
Definition MarkerRef : Set := nat.

(** The text of a label: a literal, or an f-string with one formatted field,
    [f"{pre}{v:fmt}{post}"]. *)
Inductive text : Type :=
| Str (s : string)
| FStr (pre : string) (v : pyval) (fmt : string) (post : string).

(** Calls on toolkit objects (the root window, the labels, the map, a marker).
    [Setup] stands for the construction and layout calls of the window. *)
Inductive gui_call : Type :=
| Setup (what : string)
| MapNew (width height : Z)
| LabelNew (l : label) (t : text)
| RootProtocol (name : string) (m : method)
| RootBind (sequence : string) (m : method)
| RootAfter (ms : Z) (m : method)
| RootMainloop
| RootDestroy
| LblConfigure (l : label) (t : text)
| MapSetPosition (lat lon : pyval)
| MapSetZoom (zoom : Z)
| MapSetTileServer (url : string) (max_zoom : option Z)
| MarkerSetPosition (m : MarkerRef) (lat lon : pyval).

(** The keyword arguments the program gives [map.set_marker]. *)
Record marker_args : Type := {
  arg_lat : pyval;
  arg_lon : pyval;
  arg_text : string;
  marker_color_circle : string;
  marker_color_outside : string
}.

(** Everything outside the program: the network, the toolkit and the
    standard output. Each call returns or raises, and moves the environment
    on. [print_line msg e] is [print(f"{msg}{e}")]: it raises when the stream
    is closed or broken, or cannot encode the text. *)
Class Env (W : Type) : Type := {
  requests_get : string -> W -> result Response * W;
  map_set_marker : marker_args -> W -> result MarkerRef * W;
  toolkit : gui_call -> W -> result unit * W;
  print_line : string -> exn -> W -> result unit * W
}.

(** What the log records, in program order: every call that leaves the
    program, whether it returns or raises. *)
Inductive event : Type :=
| ev_requests_get (url : string) (r : result Response)
| ev_set_marker (a : marker_args) (r : result MarkerRef)
| ev_toolkit (c : gui_call) (r : result unit)
| ev_thread_start
| ev_sleep (secs : Z)
| ev_print (msg : string) (e : exn).

(** ** The attributes of an [ISSTracker] *)

(** The attributes that hold data. The widget attributes ([self.root],
    [self.map], [self.lbl_lat], [self.lbl_lon], [self.lbl_count] and the other
    frames and labels that [__init__] and [create_widgets] assign) are objects
    of the toolkit: the record does not hold them, and a call on one of them is
    a call of the environment. The methods are modelled for an object whose
    widgets are in place when they are used, as [__init__] makes it. *)
Record Tracker : Type := {
  width : Z;
  height : Z;
  update_interval : Z;
  running : bool;
  update_thread : bool;            (* a Thread object, or None *)
  count : Z;
  marker : option MarkerRef;
  latitude : option float;         (* None: the attribute is not set yet *)
  longitude : option float
}.

(** The object as [__init__] receives it. The numeric and boolean attributes
    are assigned by [__init__] before anything reads them. *)
Definition blank : Tracker :=
  {| width := 0; height := 0; update_interval := 0; running := false;
     update_thread := false; count := 0; marker := None;
     latitude := None; longitude := None |}.

Definition with_width (v : Z) (t : Tracker) : Tracker :=
  {| width := v; height := height t; update_interval := update_interval t;
     running := running t; update_thread := update_thread t; count := count t;
     marker := marker t; latitude := latitude t; longitude := longitude t |}.
Definition with_height (v : Z) (t : Tracker) : Tracker :=
  {| width := width t; height := v; update_interval := update_interval t;
     running := running t; update_thread := update_thread t; count := count t;
     marker := marker t; latitude := latitude t; longitude := longitude t |}.
Definition with_update_interval (v : Z) (t : Tracker) : Tracker :=
  {| width := width t; height := height t; update_interval := v;
     running := running t; update_thread := update_thread t; count := count t;
     marker := marker t; latitude := latitude t; longitude := longitude t |}.
Definition with_running (v : bool) (t : Tracker) : Tracker :=
  {| width := width t; height := height t; update_interval := update_interval t;
     running := v; update_thread := update_thread t; count := count t;
     marker := marker t; latitude := latitude t; longitude := longitude t |}.
Definition with_update_thread (v : bool) (t : Tracker) : Tracker :=
  {| width := width t; height := height t; update_interval := update_interval t;
     running := running t; update_thread := v; count := count t;
     marker := marker t; latitude := latitude t; longitude := longitude t |}.
Definition with_count (v : Z) (t : Tracker) : Tracker :=
  {| width := width t; height := height t; update_interval := update_interval t;
     running := running t; update_thread := update_thread t; count := v;
     marker := marker t; latitude := latitude t; longitude := longitude t |}.
Definition with_marker (v : option MarkerRef) (t : Tracker) : Tracker :=
  {| width := width t; height := height t; update_interval := update_interval t;
     running := running t; update_thread := update_thread t; count := count t;
     marker := v; latitude := latitude t; longitude := longitude t |}.
Definition with_latitude (v : float) (t : Tracker) : Tracker :=
  {| width := width t; height := height t; update_interval := update_interval t;
     running := running t; update_thread := update_thread t; count := count t;
     marker := marker t; latitude := Some v; longitude := longitude t |}.
Definition with_longitude (v : float) (t : Tracker) : Tracker :=
  {| width := width t; height := height t; update_interval := update_interval t;
     running := running t; update_thread := update_thread t; count := count t;
     marker := marker t; latitude := latitude t; longitude := Some v |}.

(** ** The monad: attributes, environment and log; exceptions keep the state *)

Section Program.

Context {W : Type} {env : Env W} {builtins : Builtins}.

Record St : Type := {
  self : Tracker;
  world : W;
  log : list event
}.

Definition M (A : Type) : Type := St -> result A * St.

Definition ret {A} (a : A) : M A := fun s => (Ok a, s).

Definition bind {A B} (c : M A) (k : A -> M B) : M B :=
  fun s => match c s with
           | (Ok a, s') => k a s'
           | (Raise e, s') => (Raise e, s')
           end.

Definition raise {A} (e : exn) : M A := fun s => (Raise e, s).

(** [try: body  except Exception as e: handler e] *)
Definition try_except {A} (body : M A) (handler : exn -> M A) : M A :=
  fun s => match body s with
           | (Ok a, s') => (Ok a, s')
           | (Raise e, s') => handler e s'
           end.

Definition lift {A} (r : result A) : M A := fun s => (r, s).

Definition attr {A} (f : Tracker -> A) : M A := fun s => (Ok (f (self s)), s).

Definition put_self (t : Tracker) (s : St) : St :=
  {| self := t; world := world s; log := log s |}.

Definition assign (f : Tracker -> Tracker) : M unit :=
  fun s => (Ok tt, put_self (f (self s)) s).

Definition emit (e : event) : M unit :=
  fun s => (Ok tt, {| self := self s; world := world s; log := log s ++ [e] |}).

(** Reading [self.latitude] or [self.longitude] before it is set raises. *)
Definition read (f : Tracker -> option float) : M float :=
  fun s => match f (self s) with
           | Some v => (Ok v, s)
           | None => (Raise AttributeError, s)
           end.


Notation "x <- c ;; k" := (bind c (fun x => k))
  (at level 61, c at next level, right associativity).
Notation "c ;;; k" := (bind c (fun _ => k))
  (at level 61, right associativity).

(** *** Calls that leave the program *)

Definition do_requests_get (url : string) : M Response :=
  fun s => let (r, w) := requests_get url (world s) in
           (r, {| self := self s; world := w;
                  log := log s ++ [ev_requests_get url r] |}).

Definition do_set_marker (a : marker_args) : M MarkerRef :=
  fun s => let (r, w) := map_set_marker a (world s) in
           (r, {| self := self s; world := w;
                  log := log s ++ [ev_set_marker a r] |}).

Definition gui (c : gui_call) : M unit :=
  fun s => let (r, w) := toolkit c (world s) in
           (r, {| self := self s; world := w;
                  log := log s ++ [ev_toolkit c r] |}).

(** [time.sleep(secs)] for an int: the length is converted to nanoseconds
    in 64 bits first, an OverflowError when it does not fit; a negative length
    is then a ValueError. *)
Definition sleep (secs : Z) : M unit :=
  if (secs <? -9223372036) || (9223372036 <? secs) then raise OverflowError
  else if secs <? 0 then raise ValueError
  else emit (ev_sleep secs).

(** [print(f"{msg}{e}")]: the outcome is that of the standard output. *)
Definition print (msg : string) (e : exn) : M unit :=
  fun s => let (r, w) := print_line msg e (world s) in
           (r, {| self := self s; world := w;
                  log := log s ++ [ev_print msg e] |}).

(** ** The methods of [ISSTracker] *)

(** *** get_iss_position (lines 103-116) *)

(** Lines 106-112: the request, the status check and the JSON body. *)
Definition fetch_position : M pyval :=
  response <- do_requests_get URL ;;
  lift (raise_for_status response) ;;;
  lift (json response).

(** Line 115: [self.latitude = float(position.get("latitude"))] *)
Definition assign_latitude (position : pyval) : M unit :=
  v <- lift (py_get position "latitude") ;;
  f <- lift (py_float v) ;;
  assign (with_latitude f).

(** Line 116: [self.longitude = float(position.get("longitude"))] *)
Definition assign_longitude (position : pyval) : M unit :=
  v <- lift (py_get position "longitude") ;;
  f <- lift (py_float v) ;;
  assign (with_longitude f).

Definition get_iss_position : M unit :=
  position <- fetch_position ;;
  assign_latitude position ;;;
  assign_longitude position.

(** *** update_marker_position (lines 143-156) *)

Definition update_marker_position : M unit :=
  m <- attr marker ;;
  match m with
  | Some mk =>
      lat <- read latitude ;;
      lon <- read longitude ;;
      gui (MarkerSetPosition mk (PyFloat lat) (PyFloat lon)) ;;;
      lat <- read latitude ;;
      lon <- read longitude ;;
      gui (MapSetPosition (PyFloat lat) (PyFloat lon))
  | None =>
      lat <- read latitude ;;
      lon <- read longitude ;;
      mk <- do_set_marker {| arg_lat := PyFloat lat; arg_lon := PyFloat lon;
                             arg_text := "ISS"; marker_color_circle := "red";
                             marker_color_outside := "red" |} ;;
      assign (with_marker (Some mk))
  end.

(** *** update_iss_position_thread (lines 119-140) *)

(** One pass through the body of the [while] loop: the [try] block and its
    handler. *)
Definition loop_body : M unit :=
  try_except
    (get_iss_position ;;;
     c <- attr count ;;
     assign (with_count (c + 1)) ;;;
     c <- attr count ;;
     gui (LblConfigure lbl_count (FStr " Count: " (PyInt c) "" " ")) ;;;
     lat <- read latitude ;;
     gui (LblConfigure lbl_lat (FStr " Latitude: " (PyFloat lat) ".4f" " ")) ;;;
     lon <- read longitude ;;
     gui (LblConfigure lbl_lon (FStr " Longitude: " (PyFloat lon) ".4f" " ")) ;;;
     gui (RootAfter 0 m_update_marker_position) ;;;
     i <- attr update_interval ;;
     sleep i)
    (fun e => print "Error updating ISS position: " e).

(** The loop with a bound on the number of passes: [Some tt] when the loop
    was left because [self.running] was false, [None] when the bound was
    reached with the loop still going. *)
Fixpoint update_iss_position_thread (fuel : nat) : M (option unit) :=
  match fuel with
  | O => ret None
  | S n =>
      r <- attr running ;;
      if r : bool then loop_body ;;; update_iss_position_thread n
      else ret (Some tt)
  end.

(** *** change_map (lines 159-173) *)

Definition change_map (new_map : pyval) : M unit :=
  match new_map with
  | PyStr name =>
      if String.eqb name "OpenStreetMap" then
        gui (MapSetTileServer "https://a.tile.openstreetmap.org/{z}/{x}/{y}.png" None)
      else if String.eqb name "Google normal" then
        gui (MapSetTileServer
               "https://mt0.google.com/vt/lyrs=m&hl=en&x={x}&y={y}&z={z}&s=Ga" (Some 22))
      else if String.eqb name "Google satellite" then
        gui (MapSetTileServer
               "https://mt0.google.com/vt/lyrs=s&hl=en&x={x}&y={y}&z={z}&s=Ga" (Some 22))
      else ret tt
  | _ => ret tt
  end.

(** *** quit (lines 276-279): [def quit(self, *arts)] *)

Definition quit (arts : list pyval) : M unit :=
  assign (with_running false) ;;;
  gui RootDestroy.

(** *** run, up to the main loop (lines 178-187) *)

(** The flag is set, the thread is made and started. *)
Definition start_thread : M unit :=
  assign (with_running true) ;;;
  assign (with_update_thread true) ;;;
  emit ev_thread_start.

(** *** initialize_marker (lines 78-100) *)

Definition initialize_marker : M unit :=
  try_except
    (lat <- read latitude ;;
     lon <- read longitude ;;
     mk <- do_set_marker {| arg_lat := PyFloat lat; arg_lon := PyFloat lon;
                            arg_text := "ISS"; marker_color_circle := "red";
                            marker_color_outside := "darkblue" |} ;;
     assign (with_marker (Some mk)))
    (fun e =>
       print "Error initializing marker: " e ;;;
       mk <- do_set_marker {| arg_lat := PyInt 0; arg_lon := PyInt 0;
                              arg_text := "ISS"; marker_color_circle := "red";
                              marker_color_outside := "darkblue" |} ;;
       assign (with_marker (Some mk))).

(** *** create_widgets (lines 193-273) *)

Definition create_widgets : M unit :=
  gui (Setup "main_frame") ;;;
  gui (Setup "main_frame.grid") ;;;
  gui (Setup "map_frame") ;;;
  gui (Setup "map_frame.grid") ;;;
  w <- attr width ;;
  h <- attr height ;;
  gui (MapNew w h) ;;;
  lat <- read latitude ;;
  lon <- read longitude ;;
  gui (MapSetPosition (PyFloat lat) (PyFloat lon)) ;;;
  gui (MapSetZoom 5) ;;;
  gui (Setup "map.pack") ;;;
  gui (Setup "status_frame") ;;;
  gui (Setup "status_frame.grid") ;;;
  lat <- read latitude ;;
  gui (LabelNew lbl_lat (FStr "Latitude: " (PyFloat lat) ".4f" "")) ;;;
  lon <- read longitude ;;
  gui (LabelNew lbl_lon (FStr "Longitude: " (PyFloat lon) ".4f" "")) ;;;
  gui (LabelNew lbl_count (Str "Count: 0")) ;;;
  gui (LabelNew lbl_tile_server (Str "Tile Server")) ;;;
  gui (Setup "map_option_menu") ;;;
  gui (Setup "lbl_lat.grid") ;;;
  gui (Setup "lbl_lon.grid") ;;;
  gui (Setup "lbl_count.grid") ;;;
  gui (Setup "lbl_tile_server.grid") ;;;
  gui (Setup "map_option_menu.grid") ;;;
  gui (Setup "status_frame.winfo_children grid_configure") ;;;
  gui (RootBind "<Escape>" m_quit).

(** *** __init__ (lines 28-75) *)

(** Lines 41-68: the window, and the attributes set before the first
    request. *)
Definition init_attributes (window_width window_height interval : Z) : M unit :=
  assign (with_width window_width) ;;;
  assign (with_height window_height) ;;;
  gui (Setup "ctk.set_appearance_mode") ;;;
  gui (Setup "ctk.set_default_color_theme") ;;;
  gui (Setup "root") ;;;
  gui (Setup "root.title") ;;;
  gui (Setup "small_icon") ;;;
  gui (Setup "large_icon") ;;;
  gui (Setup "root.wm_iconbitmap") ;;;
  gui (Setup "root.iconphoto") ;;;
  gui (RootProtocol "WM_DELETE_WINDOW" m_quit) ;;;
  assign (with_update_interval interval) ;;;
  assign (with_running false) ;;;
  assign (with_update_thread false) ;;;
  assign (with_count 0) ;;;
  assign (with_marker None).

Definition __init__ (window_width window_height interval : Z) : M unit :=
  init_attributes window_width window_height interval ;;;
  get_iss_position ;;;
  create_widgets ;;;
  initialize_marker.

(** [ISSTracker(window_width, window_height, update_interval)] in a given
    environment: the new object when [__init__] returns, the exception when
    it raises; the state reached is returned in both cases. *)
Definition ISSTracker (window_width window_height interval : Z) (w : W)
  : result Tracker * St :=
  match __init__ window_width window_height interval
             {| self := blank; world := w; log := [] |} with
  | (Ok _, s) => (Ok (self s), s)
  | (Raise e, s) => (Raise e, s)
  end.

(** *** Calling a bound method with positional arguments *)

(** Python checks the arguments against the signature: [quit(self, *arts)]
    takes any number, [update_marker_position(self)] none and
    [change_map(self, new_map)] exactly one. *)
Definition call_method (m : method) (args : list pyval) : M unit :=
  match m, args with
  | m_quit, _ => quit args
  | m_update_marker_position, [] => update_marker_position
  | m_change_map, [new_map] => change_map new_map
  | _, _ => raise TypeError
  end.

(** *** Which calls touch what the UI thread owns *)

(** The labels, the map surface and its markers belong to the UI thread.
    [root.after] is the way in from another thread: it queues a callback for
    the UI thread to run. *)
Definition ui_owned (c : gui_call) : bool :=
  match c with
  | LabelNew _ _ | LblConfigure _ _ => true
  | MapNew _ _ | MapSetPosition _ _ | MapSetZoom _ | MapSetTileServer _ _ => true
  | MarkerSetPosition _ _ _ => true
  | Setup _ | RootProtocol _ _ | RootBind _ _ | RootMainloop | RootDestroy => true
  | RootAfter _ _ => false
  end.

Definition touches_ui (e : event) : bool :=
  match e with
  | ev_toolkit c _ => ui_owned c
  | ev_set_marker _ _ => true
  | ev_requests_get _ _ | ev_thread_start | ev_sleep _ | ev_print _ _ => false
  end.

Definition is_sleep (e : event) : bool :=
  match e with
  | ev_sleep _ => true
  | _ => false
  end.

Definition is_print (e : event) : bool :=
  match e with
  | ev_print _ _ => true
  | _ => false
  end.

Definition is_set_marker (e : event) : bool :=
  match e with
  | ev_set_marker _ _ => true
  | _ => false
  end.

Definition is_request (e : event) : bool :=
  match e with
  | ev_requests_get _ _ => true
  | _ => false
  end.



(** The tile servers [change_map] knows by name. *)
Definition known_map (new_map : pyval) : bool :=
  match new_map with
  | PyStr name =>
      String.eqb name "OpenStreetMap" || String.eqb name "Google normal"
      || String.eqb name "Google satellite"
  | _ => false
  end.

(** The arguments of the three calls of [map.set_marker] in the source. *)
Definition marker_args_at (lat lon : pyval) (outside : string) : marker_args :=
  {| arg_lat := lat; arg_lon := lon; arg_text := "ISS";
     marker_color_circle := "red"; marker_color_outside := outside |}.

(** ** The two threads *)

(** The worker thread runs [update_iss_position_thread]; the UI thread runs
    the callbacks the toolkit dispatches. A pass of the worker's loop takes two
    steps: the test of [self.running] at line 121, and the body. Callbacks run
    before the test, between the test and the body, and after the body. The
    body is one step: it reads no attribute that a callback assigns
    ([self.running] and [self.marker]), and what the UI thread does to the
    toolkit meanwhile is the business of the environment, which is arbitrary.
    The two assignments of the position inside the body are taken apart
    further below. *)
Inductive thread_state : Set :=
| Looping              (* at the head of the while loop *)
| InBody               (* the test has passed, the body is to run *)
| Exited               (* the loop was left, the method returned *)
| Died (e : exn).      (* an exception left the method *)

Inductive action : Type :=
| Worker                                   (* the worker takes its next step *)
| Ui (m : method) (args : list pyval).     (* the toolkit calls a callback *)

Definition worker_step (c : thread_state * St) : thread_state * St :=
  match c with
  | (Looping, s) => if running (self s) then (InBody, s) else (Exited, s)
  | (InBody, s) =>
      match loop_body s with
      | (Ok _, s') => (Looping, s')
      | (Raise e, s') => (Died e, s')
      end
  | (t, s) => (t, s)
  end.

(** An exception of a callback is reported by the toolkit and goes no
    further. *)
Definition step (a : action) (c : thread_state * St) : thread_state * St :=
  match a, c with
  | Worker, c => worker_step c
  | Ui m args, (t, s) => (t, snd (call_method m args s))
  end.

Fixpoint exec (sched : list action) (c : thread_state * St) : thread_state * St :=
  match sched with
  | [] => c
  | a :: rest => exec rest (step a c)
  end.

(** Does the call of [get_iss_position] made in state [s] return? *)
Definition fetch_ok (s : St) : bool :=
  match fst (get_iss_position s) with
  | Ok _ => true
  | Raise _ => false
  end.

(** The bodies the worker runs under a schedule, each with the outcome of
    its fetch, in order. *)
Fixpoint fetch_outcomes (sched : list action) (c : thread_state * St) : list bool :=
  match sched with
  | [] => []
  | a :: rest =>
      match a, c with
      | Worker, (InBody, s) => fetch_ok s :: fetch_outcomes rest (step a c)
      | _, _ => fetch_outcomes rest (step a c)
      end
  end.

Definition successes (l : list bool) : Z := Z.of_nat (List.length (filter (fun b => b) l)).

Definition is_quit (a : action) : bool :=
  match a with
  | Ui m_quit _ => true
  | _ => false
  end.

Definition is_worker (a : action) : bool :=
  match a with
  | Worker => true
  | _ => false
  end.

(** [n] passes of the worker in a row: test and body, [n] times. *)
Fixpoint passes (n : nat) : list action :=
  match n with
  | O => []
  | S m => Worker :: Worker :: passes m
  end.

(** What [update_iss_position_thread] has come to when its thread is in a
    given state: [None] stands for a loop that is still going. *)
Definition thread_result (t : thread_state) : result (option unit) :=
  match t with
  | Looping | InBody => Ok None
  | Exited => Ok (Some tt)
  | Died e => Raise e
  end.

(** *** run (lines 176-190) and main (lines 282-285) *)

(** [self.root.mainloop()] blocks while the toolkit dispatches the callbacks
    and the worker takes its steps; [sched] is the order in which that
    happens until the call comes back, and the call is logged with its
    outcome when it does. *)
Definition mainloop (sched : list action) : M unit :=
  fun s => gui RootMainloop (snd (exec sched (Looping, s))).

Definition run (sched : list action) : M unit :=
  start_thread ;;;
  mainloop sched.

(** [tracker = ISSTracker()] with the defaults of [__init__], then
    [tracker.run()]. *)
Definition main (sched : list action) (w : W) : result unit * St :=
  match ISSTracker (1024 * 2) (768 * 2) 10 w with
  | (Ok _, s) => run sched s
  | (Raise e, s) => (Raise e, s)
  end.

(** ** Attribute by attribute: writes and reads of the position *)

(** [get_iss_position] assigns [self.latitude] and [self.longitude] in two
    statements, and [update_marker_position] reads them in two attribute
    loads while it evaluates [(self.latitude, self.longitude)]. Nothing
    keeps the other thread out in between. The worker is given the positions
    that its requests returned; the UI thread takes a number of snapshots. *)
Inductive writer_pc : Set :=
| at_latitude          (* before line 115 *)
| at_longitude.        (* between line 115 and line 116 *)

Inductive reader_pc : Set :=
| at_first                       (* before the load of self.latitude *)
| have_latitude (lat : float).   (* between the two loads *)

Inductive tid : Set := worker_thread | ui_thread.

Record config : Type := {
  shared : St;
  pending : list pyval;
  wpc : writer_pc;
  snapshots : nat;
  rpc : reader_pc;
  observed : list (float * float)
}.

Definition writer_step (c : config) : config :=
  match pending c with
  | [] => c
  | position :: rest =>
      match wpc c with
      | at_latitude =>
          match assign_latitude position (shared c) with
          | (Ok _, s') =>
              {| shared := s'; pending := position :: rest; wpc := at_longitude;
                 snapshots := snapshots c; rpc := rpc c; observed := observed c |}
          | (Raise _, s') =>
              {| shared := s'; pending := rest; wpc := at_latitude;
                 snapshots := snapshots c; rpc := rpc c; observed := observed c |}
          end
      | at_longitude =>
          {| shared := snd (assign_longitude position (shared c));
             pending := rest; wpc := at_latitude;
             snapshots := snapshots c; rpc := rpc c; observed := observed c |}
      end
  end.

Definition reader_step (c : config) : config :=
  match snapshots c with
  | O => c
  | S n =>
      match rpc c with
      | at_first =>
          match read latitude (shared c) with
          | (Ok lat, _) =>
              {| shared := shared c; pending := pending c; wpc := wpc c;
                 snapshots := S n; rpc := have_latitude lat; observed := observed c |}
          | (Raise _, _) =>
              {| shared := shared c; pending := pending c; wpc := wpc c;
                 snapshots := n; rpc := at_first; observed := observed c |}
          end
      | have_latitude lat =>
          match read longitude (shared c) with
          | (Ok lon, _) =>
              {| shared := shared c; pending := pending c; wpc := wpc c;
                 snapshots := n; rpc := at_first;
                 observed := observed c ++ [(lat, lon)] |}
          | (Raise _, _) =>
              {| shared := shared c; pending := pending c; wpc := wpc c;
                 snapshots := n; rpc := at_first; observed := observed c |}
          end
      end
  end.

Definition micro_step (t : tid) (c : config) : config :=
  match t with
  | worker_thread => writer_step c
  | ui_thread => reader_step c
  end.

Fixpoint interleave (sched : list tid) (c : config) : config :=
  match sched with
  | [] => c
  | t :: rest => interleave rest (micro_step t c)
  end.

Definition start (s : St) (positions : list pyval) (n : nat) : config :=
  {| shared := s; pending := positions; wpc := at_latitude;
     snapshots := n; rpc := at_first; observed := [] |}.

(** A schedule that preempts no thread between its two accesses: the worker
    moves only when no snapshot is half taken, the UI thread only when no
    call is between its two assignments. *)
Fixpoint serial (sched : list tid) (c : config) : bool :=
  match sched with
  | [] => true
  | t :: rest =>
      match t, rpc c, wpc c with
      | worker_thread, at_first, _ => serial rest (micro_step t c)
      | ui_thread, _, at_latitude => serial rest (micro_step t c)
      | _, _, _ => false
      end
  end.

(** The pair a call stores from [position] when both conversions succeed. *)
Definition coordinates (position : pyval) : option (float * float) :=
  match py_get position "latitude", py_get position "longitude" with
  | Ok v1, Ok v2 =>
      match py_float v1, py_float v2 with
      | Ok a, Ok b => Some (a, b)
      | _, _ => None
      end
  | _, _ => None
  end.

(** The calls that stop between the two assignments: the latitude is
    converted and the longitude is not. *)
Definition half_written (position : pyval) : bool :=
  match py_get position "latitude", py_get position "longitude" with
  | Ok v1, Ok v2 =>
      match py_float v1, py_float v2 with
      | Ok _, Raise _ => true
      | _, _ => false
      end
  | _, _ => false
  end.

(** The pairs that count as written: the one in place at the start and the
    pair of every call that completes. *)
Fixpoint written (positions : list pyval) : list (option float * option float) :=
  match positions with
  | [] => []
  | p :: rest =>
      match coordinates p with
      | Some (a, b) => (Some a, Some b) :: written rest
      | None => written rest
      end
  end.

Definition position_of (s : St) : option float * option float :=
  (latitude (self s), longitude (self s)).

(** ** Successful fetches, as the log shows them *)

(** A response that [get_iss_position] takes: no error status, and a body
    that decodes and holds a latitude and a longitude that convert. *)
Definition good_response (response : Response) : bool :=
  match raise_for_status response, body response with
  | Ok _, Some position =>
      match coordinates position with
      | Some _ => true
      | None => false
      end
  | _, _ => false
  end.

Definition is_successful_fetch (e : event) : bool :=
  match e with
  | ev_requests_get _ (Ok response) => good_response response
  | _ => false
  end.

(** The number of successful fetches in a log. *)
Definition fetched (l : list event) : Z :=
  Z.of_nat (List.length (filter is_successful_fetch l)).

(** ** Invariants *)

(** Of the worker under a schedule: if it has left its loop by the test, the
    flag is down; if an exception has left the method, the print of the
    handler raised it. *)
Definition worker_invariant (c : thread_state * St) : Prop :=
  match fst c with
  | Looping | InBody => True
  | Exited => running (self (snd c)) = false
  | Died e =>
      exists e0 (w : W),
        fst (print_line "Error updating ISS position: " e0 w) = Raise e
  end.

(** The standard output takes every line of the loop's handler. *)
Definition stdout_takes_errors : Prop :=
  forall e (w : W), fst (print_line "Error updating ISS position: " e w) = Ok tt.

(** Of the position under a serial schedule, for the pairs [allowed]: what
    has been observed is allowed; the calls to come write allowed pairs and
    none stops half way; between calls the pair in place is allowed; inside a
    call the new latitude is in place and its longitude is about to follow;
    inside a snapshot the latitude read is still in place. *)
Definition consistent (allowed : list (option float * option float)) (c : config)
  : Prop :=
  (forall lat lon, In (lat, lon) (observed c) -> In (Some lat, Some lon) allowed) /\
  incl (written (pending c)) allowed /\
  forallb (fun p => negb (half_written p)) (pending c) = true /\
  match wpc c with
  | at_latitude => In (position_of (shared c)) allowed
  | at_longitude =>
      exists position rest lat lon,
        pending c = position :: rest /\
        coordinates position = Some (lat, lon) /\
        latitude (self (shared c)) = Some lat /\
        rpc c = at_first
  end /\
  match rpc c with
  | at_first => True
  | have_latitude lat =>
      wpc c = at_latitude /\ latitude (self (shared c)) = Some lat
  end.

End Program.

Arguments St W : clear implicits.
Arguments config W : clear implicits.
Arguments stdout_takes_errors W {env}.

(** ** An environment to run the program in *)

(** A scripted network and a toolkit that behaves as Tk does once its root
    window is gone: [requests.get] returns the next reply of the script
    (ConnectionError when none is left); every toolkit command, [destroy]
    included, raises TclError after [root.destroy()], and [mainloop] comes
    back; markers are numbered as they are made; the standard output takes
    every line. *)
Record TkWorld : Type := {
  replies : list (result Response);
  destroyed : bool;
  markers : nat
}.

#[export] Instance tk_env : Env TkWorld := {
  requests_get _ w :=
    match replies w with
    | [] => (Raise ConnectionError, w)
    | r :: rest => (r, {| replies := rest; destroyed := destroyed w; markers := markers w |})
    end;
  map_set_marker _ w :=
    if destroyed w then (Raise TclError, w)
    else (Ok (markers w),
          {| replies := replies w; destroyed := destroyed w;
             markers := S (markers w) |});
  toolkit c w :=
    match c with
    | RootMainloop => (Ok tt, w)
    | RootDestroy =>
        if destroyed w then (Raise TclError, w)
        else (Ok tt, {| replies := replies w; destroyed := true; markers := markers w |})
    | _ => if destroyed w then (Raise TclError, w) else (Ok tt, w)
    end;
  print_line _ _ w := (Ok tt, w)
}.

(** The same with the standard output closed: [print] raises ValueError
    (I/O operation on closed file). *)
Record ClosedStdout : Type := {
  tk : TkWorld
}.

#[export] Instance closed_stdout_env : Env ClosedStdout := {
  requests_get url w :=
    let (r, w') := requests_get url (tk w) in (r, {| tk := w' |});
  map_set_marker a w :=
    let (r, w') := map_set_marker a (tk w) in (r, {| tk := w' |});
  toolkit c w :=
    let (r, w') := toolkit c (tk w) in (r, {| tk := w' |});
  print_line _ _ w := (Raise ValueError, w)
}.

(** For the runs below, whose replies hold numbers: a parser that takes no
    string for a number. *)
#[export] Instance no_numeric_strings : Builtins := {
  float_of_str _ := None
}.

Definition reply (status : Z) (items : list (string * pyval)) : result Response :=
  Ok {| status_code := status; body := Some (PyDict items);
        decode_error := JSONDecodeError |}.

Definition tk_world (script : list (result Response)) : TkWorld :=
  {| replies := script; destroyed := false; markers := 0 |}.

(** A tracker in mid-run at a given position: constructed with the defaults
    of [__init__], its marker made, its thread started. *)
Definition tracker_at (lat lon : float) : Tracker :=
  {| width := 2048; height := 1536; update_interval := 10; running := true;
     update_thread := true; count := 0; marker := Some 0%nat;
     latitude := Some lat; longitude := Some lon |}.

Definition running_world (script : list (result Response)) : TkWorld :=
  {| replies := script; destroyed := false; markers := 1 |}.

Definition state_at (lat lon : float) (script : list (result Response)) : St TkWorld :=
  {| self := tracker_at lat lon; world := running_world script; log := [] |}.

(** Replies of the API: a full one, and one whose longitude is missing. *)
Definition position_1_2 : pyval :=
  PyDict [("latitude", PyFloat 1); ("longitude", PyFloat 2)].
Definition position_3_4 : pyval :=
  PyDict [("latitude", PyFloat 3); ("longitude", PyFloat 4)].
Definition reply_3_4 : result Response :=
  reply 200 [("latitude", PyFloat 3); ("longitude", PyFloat 4)].
Definition reply_without_longitude : result Response :=
  reply 200 [("latitude", PyFloat 3)].

Definition fresh_state : St TkWorld :=
  {| self := blank; world := tk_world []; log := [] |}.

(** A reply with an error status and a good body, one without a latitude,
    and one whose latitude is no number. *)
Definition reply_404 : Response :=
  {| status_code := 404; body := Some position_3_4; decode_error := JSONDecodeError |}.
Definition reply_without_latitude : Response :=
  {| status_code := 200; body := Some (PyDict [("longitude", PyFloat 4)]);
     decode_error := JSONDecodeError |}.
(** A body with an integer of five thousand digits: the decoder raises a
    plain ValueError. *)
Definition reply_with_huge_integer : Response :=
  {| status_code := 200; body := None; decode_error := ValueError |}.
Definition reply_north : result Response :=
  reply 200 [("latitude", PyStr "north"); ("longitude", PyFloat 4)].

(** The tracker at (1, 2) after its window was destroyed, without its
    marker, and with a negative interval. *)
Definition destroyed_state : St TkWorld :=
  {| self := tracker_at 1 2;
     world := {| replies := []; destroyed := true; markers := 1 |};
     log := [] |}.
Definition state_without_marker : St TkWorld :=
  {| self := with_marker None (tracker_at 1 2); world := tk_world []; log := [] |}.
Definition state_with_negative_interval : St TkWorld :=
  {| self := with_update_interval (-1) (tracker_at 1 2);
     world := running_world [reply_3_4]; log := [] |}.

(** The tracker at (1, 2) with its thread started and no standard output. *)
Definition state_without_stdout (script : list (result Response)) : St ClosedStdout :=
  {| self := tracker_at 1 2; world := {| tk := running_world script |}; log := [] |}.

(** A session in the main loop: a pass, the queued marker update, the
    window closed while the next pass is in flight, that pass, and the test
    that ends the loop; and the replies it meets, the first of them at
    startup. *)
Definition session : list action :=
  [Worker; Worker; Ui m_update_marker_position []; Worker; Ui m_quit [];
   Worker; Worker].
Definition session_replies : list (result Response) :=
  [reply_3_4;
   reply 200 [("latitude", PyFloat 5); ("longitude", PyFloat 6)];
   reply 200 [("latitude", PyFloat 7); ("longitude", PyFloat 8)]].

(** The run of the counts: the constructor's fetch, then three passes of the
    loop of which the second fails. *)
Definition counted_run : thread_state * St TkWorld :=
  exec (passes 3)
    (Looping,
     snd (start_thread
            (snd (ISSTracker 2048 1536 10
                    (tk_world [reply_3_4; reply_3_4; Raise ReadTimeout; reply_3_4]))))).

(** * Properties *)

(** Case analysis on every outcome of the calls left in the goal. *)
Ltac run_calls :=
  repeat match goal with
    | |- context [toolkit ?c ?w] =>
        let r := fresh "r" in let w' := fresh "w" in
        destruct (toolkit c w) as [[[] | r] w']; cbn
    | |- context [map_set_marker ?a ?w] =>
        let r := fresh "r" in let w' := fresh "w" in
        destruct (map_set_marker a w) as [[? | r] w']; cbn
    | |- context [print_line ?m ?e ?w] =>
        let r := fresh "r" in let w' := fresh "w" in
        destruct (print_line m e w) as [[[] | r] w']; cbn
    | |- context [match latitude ?t with _ => _ end] => destruct (latitude t); cbn
    | |- context [match longitude ?t with _ => _ end] => destruct (longitude t); cbn
    | |- context [if ?b then _ else _] => destruct b; cbn
    end.

Section Basics.

Context {W : Type} {env : Env W} {builtins : Builtins}.

Implicit Types (s : St W) (e : exn) (position : pyval).

(** ** Laws of the monad used below *)

Lemma bind_run {A B} (c : M A) (k : A -> M B) s :
  bind c k s = match c s with
               | (Ok a, s1) => k a s1
               | (Raise e, s1) => (Raise e, s1)
               end.
Proof. reflexivity. Qed.

Lemma try_bind {A B} (c : M A) (k : A -> M B) (h : exn -> M B) s :
  try_except (bind c k) h s =
  match c s with
  | (Ok a, s1) => try_except (k a) h s1
  | (Raise e, s1) => h e s1
  end.
Proof.
  unfold try_except, bind. destruct (c s) as [[a | e] s1]; reflexivity.
Qed.

Lemma print_run (msg : string) e s :
  print msg e s =
  (fst (print_line msg e (world s)),
   {| self := self s; world := snd (print_line msg e (world s));
      log := log s ++ [ev_print msg e] |}).
Proof. unfold print. destruct (print_line msg e (world s)); reflexivity. Qed.

(** An exception leaves [try: ... except Exception: ...] from the handler
    only. *)
Lemma try_except_raises {A} (c : M A) (h : exn -> M A) s e :
  fst (try_except c h s) = Raise e ->
  exists e0 s1, c s = (Raise e0, s1) /\ fst (h e0 s1) = Raise e.
Proof.
  unfold try_except. destruct (c s) as [[a | e0] s1]; cbn; intros H.
  - discriminate H.
  - exists e0, s1. split; [ reflexivity | exact H ].
Qed.

(** ** Which events a computation adds to the log *)

Section Filters.

Variable f : event -> bool.

Lemma bind_filter {A B} (c : M A) (k : A -> M B) :
  (forall s, filter f (log (snd (c s))) = filter f (log s)) ->
  (forall a s, filter f (log (snd (k a s))) = filter f (log s)) ->
  forall s, filter f (log (snd (bind c k s))) = filter f (log s).
Proof.
  intros Hc Hk s. unfold bind. specialize (Hc s).
  destruct (c s) as [[a | e] s1]; cbn [snd] in *.
  - rewrite Hk. exact Hc.
  - exact Hc.
Qed.

Lemma try_filter {A} (c : M A) (h : exn -> M A) :
  (forall s, filter f (log (snd (c s))) = filter f (log s)) ->
  (forall e s, filter f (log (snd (h e s))) = filter f (log s)) ->
  forall s, filter f (log (snd (try_except c h s))) = filter f (log s).
Proof.
  intros Hc Hh s. unfold try_except. specialize (Hc s).
  destruct (c s) as [[a | e] s1]; cbn [snd] in *.
  - exact Hc.
  - rewrite Hh. exact Hc.
Qed.

Lemma gui_filter (c : gui_call) :
  (forall r, f (ev_toolkit c r) = false) ->
  forall s, filter f (log (snd (gui c s))) = filter f (log s).
Proof.
  intros H s. unfold gui. destruct (toolkit c (world s)) as [r w]. cbn.
  rewrite filter_app. cbn. rewrite H. apply app_nil_r.
Qed.

Lemma set_marker_filter (a : marker_args) :
  (forall r, f (ev_set_marker a r) = false) ->
  forall s, filter f (log (snd (do_set_marker a s))) = filter f (log s).
Proof.
  intros H s. unfold do_set_marker. destruct (map_set_marker a (world s)) as [r w].
  cbn. rewrite filter_app. cbn. rewrite H. apply app_nil_r.
Qed.

Lemma emit_filter (e : event) :
  f e = false -> forall s, filter f (log (snd (emit e s))) = filter f (log s).
Proof.
  intros H s. cbn. rewrite filter_app. cbn. rewrite H. apply app_nil_r.
Qed.

Lemma read_filter (g : Tracker -> option float) s :
  filter f (log (snd (read g s))) = filter f (log s).
Proof. unfold read. destruct (g (self s)); reflexivity. Qed.

Lemma print_filter (msg : string) (e : exn) :
  f (ev_print msg e) = false ->
  forall s, filter f (log (snd (print msg e s))) = filter f (log s).
Proof.
  intros H s. unfold print. destruct (print_line msg e (world s)) as [r w].
  cbn. rewrite filter_app. cbn. rewrite H. apply app_nil_r.
Qed.

Lemma sleep_filter (secs : Z) :
  f (ev_sleep secs) = false ->
  forall s, filter f (log (snd (sleep secs s))) = filter f (log s).
Proof.
  intros H s. unfold sleep.
  destruct ((secs <? -9223372036) || (9223372036 <? secs)); [ reflexivity | ].
  destruct (secs <? 0); [ reflexivity | ].
  apply emit_filter. exact H.
Qed.

End Filters.

(** ** get_iss_position, statement by statement *)

Lemma assign_latitude_run position s :
  assign_latitude position s =
  match py_get position "latitude" with
  | Ok v => match py_float v with
            | Ok f => (Ok tt, put_self (with_latitude f (self s)) s)
            | Raise e => (Raise e, s)
            end
  | Raise e => (Raise e, s)
  end.
Proof.
  unfold assign_latitude, bind, lift, assign, put_self.
  destruct (py_get position "latitude") as [v | e]; [ | reflexivity ].
  destruct (py_float v); reflexivity.
Qed.

Lemma assign_longitude_run position s :
  assign_longitude position s =
  match py_get position "longitude" with
  | Ok v => match py_float v with
            | Ok f => (Ok tt, put_self (with_longitude f (self s)) s)
            | Raise e => (Raise e, s)
            end
  | Raise e => (Raise e, s)
  end.
Proof.
  unfold assign_longitude, bind, lift, assign, put_self.
  destruct (py_get position "longitude") as [v | e]; [ | reflexivity ].
  destruct (py_float v); reflexivity.
Qed.

(** The request, the status check and the decoding leave the attributes
    alone; they add the request to the log. *)
Lemma fetch_position_run s :
  exists r w,
    requests_get URL (world s) = (r, w) /\
    snd (fetch_position s) =
      {| self := self s; world := w; log := log s ++ [ev_requests_get URL r] |} /\
    fst (fetch_position s) =
      match r with
      | Ok response =>
          match raise_for_status response with
          | Ok _ => json response
          | Raise e => Raise e
          end
      | Raise e => Raise e
      end.
Proof.
  unfold fetch_position, bind, do_requests_get, lift.
  destruct (requests_get URL (world s)) as [r w]. exists r, w.
  split; [ reflexivity | ].
  destruct r as [response | e]; [ | split; reflexivity ].
  destruct (raise_for_status response); [ | split; reflexivity ].
  destruct (json response); split; reflexivity.
Qed.

Lemma get_iss_position_run s :
  get_iss_position s =
  match fetch_position s with
  | (Ok position, s1) =>
      match assign_latitude position s1 with
      | (Ok _, s2) => assign_longitude position s2
      | (Raise e, s2) => (Raise e, s2)
      end
  | (Raise e, s1) => (Raise e, s1)
  end.
Proof. reflexivity. Qed.

(** Whatever the outcome, the call changes no attribute but the position,
    and it adds one request to the log and nothing else. *)
Lemma get_iss_position_effect s :
  exists r w lat lon,
    requests_get URL (world s) = (r, w) /\
    snd (get_iss_position s) =
      {| self := {| width := width (self s); height := height (self s);
                    update_interval := update_interval (self s);
                    running := running (self s);
                    update_thread := update_thread (self s);
                    count := count (self s); marker := marker (self s);
                    latitude := lat; longitude := lon |};
         world := w; log := log s ++ [ev_requests_get URL r] |}.
Proof.
  rewrite get_iss_position_run.
  destruct (fetch_position_run s) as (r & w & Hget & Hs1 & _).
  exists r, w.
  destruct (fetch_position s) as [[position | e] s1]; simpl in Hs1; subst s1.
  - rewrite assign_latitude_run.
    destruct (py_get position "latitude") as [v | e1];
      [ destruct (py_float v) as [f | e1] | ].
    + rewrite assign_longitude_run.
      destruct (py_get position "longitude") as [v2 | e2];
        [ destruct (py_float v2) as [g | e2] | ].
      * exists (Some f), (Some g). split; [ exact Hget | reflexivity ].
      * exists (Some f), (longitude (self s)). split; [ exact Hget | reflexivity ].
      * exists (Some f), (longitude (self s)). split; [ exact Hget | reflexivity ].
    + exists (latitude (self s)), (longitude (self s)).
      split; [ exact Hget | destruct s as [[] ? ?]; reflexivity ].
    + exists (latitude (self s)), (longitude (self s)).
      split; [ exact Hget | destruct s as [[] ? ?]; reflexivity ].
  - exists (latitude (self s)), (longitude (self s)).
    split; [ exact Hget | destruct s as [[] ? ?]; reflexivity ].
Qed.

Lemma get_iss_position_filter (f : event -> bool) :
  (forall r, f (ev_requests_get URL r) = false) ->
  forall s, filter f (log (snd (get_iss_position s))) = filter f (log s).
Proof.
  intros H s. destruct (get_iss_position_effect s) as (r & w & lat & lon & _ & ->).
  cbn. rewrite filter_app. cbn. rewrite H. apply app_nil_r.
Qed.


End Basics.

(** Every call left in the goal adds an event that the filter drops. *)
Ltac quiet :=
  repeat first
    [ apply bind_filter; [ | intros ? ]
    | apply try_filter; [ | intros ? ]
    | apply gui_filter; intros ?; reflexivity
    | apply set_marker_filter; intros ?; reflexivity
    | apply emit_filter; reflexivity
    | apply print_filter; reflexivity
    | apply sleep_filter; reflexivity
    | apply get_iss_position_filter; intros ?; reflexivity
    | intros ?; apply read_filter
    | intros ?; reflexivity ].

Section Properties.

Context {W : Type} {env : Env W} {builtins : Builtins}.

Implicit Types (s : St W) (e : exn) (position : pyval).

(** C10. A call of [get_iss_position] that returns has assigned
    [self.latitude] and [self.longitude] and nothing else: the sample count, the
    running flag, the update interval, the marker reference and every other
    attribute of the tracker are as they were. *)
Theorem get_iss_position_frame s s' :
  get_iss_position s = (Ok tt, s') ->
  (exists lat lon, self s' = with_longitude lon (with_latitude lat (self s))) /\
  count (self s') = count (self s) /\
  running (self s') = running (self s) /\
  update_interval (self s') = update_interval (self s) /\
  marker (self s') = marker (self s) /\
  update_thread (self s') = update_thread (self s) /\
  width (self s') = width (self s) /\
  height (self s') = height (self s).
Proof.
  intros H. rewrite get_iss_position_run in H.
  destruct (fetch_position_run s) as (r & w & _ & Hs1 & _).
  destruct (fetch_position s) as [[position | e] s1]; [ | discriminate H ].
  simpl in Hs1. rewrite assign_latitude_run in H.
  destruct (py_get position "latitude") as [v | e]; [ | discriminate H ].
  destruct (py_float v) as [f | e]; [ | discriminate H ].
  rewrite assign_longitude_run in H.
  destruct (py_get position "longitude") as [v2 | e]; [ | discriminate H ].
  destruct (py_float v2) as [g | e]; [ | discriminate H ].
  injection H as <-. subst s1. simpl.
  split; [ exists f, g; reflexivity | repeat split ].
Qed.

(** C3, as amended. A failed call of [get_iss_position] leaves
    [self.longitude] as it was. It leaves the whole tracker as it was when the
    request, the status check, the decoding or the conversion of the latitude
    fails; the one other failure is that of line 116, met after line 115 has
    assigned the new latitude. *)
Theorem failed_fetch_position s s' e :
  get_iss_position s = (Raise e, s') ->
  longitude (self s') = longitude (self s) /\
  (self s' = self s \/
   exists position s1,
     fetch_position s = (Ok position, s1) /\
     assign_latitude position s1 = (Ok tt, s') /\
     fst (assign_longitude position s') = Raise e).
Proof.
  intros H. rewrite get_iss_position_run in H.
  destruct (fetch_position_run s) as (r & w & _ & Hs1 & _).
  destruct (fetch_position s) as [[position | e0] s1]; simpl in Hs1.
  - destruct (assign_latitude position s1) as [[[] | e1] s2] eqn:Hlat;
      cbv iota beta in H.
    + assert (Hs2 : longitude (self s2) = longitude (self s) /\ s' = s2).
      { rewrite assign_latitude_run in Hlat. rewrite assign_longitude_run in H.
        destruct (py_get position "latitude") as [v | ?]; [ | discriminate Hlat ].
        destruct (py_float v) as [f | ?]; [ | discriminate Hlat ].
        injection Hlat as <-. subst s1.
        destruct (py_get position "longitude") as [v2 | ?];
          [ destruct (py_float v2) | ];
          first [ discriminate H | injection H as _ <-; split; reflexivity ]. }
      destruct Hs2 as [Hlon ->]. split; [ exact Hlon | ].
      right. exists position, s1.
      split; [ reflexivity | split; [ exact Hlat | rewrite H; reflexivity ] ].
    + rewrite assign_latitude_run in Hlat.
      assert (s2 = s1).
      { destruct (py_get position "latitude") as [v | ?];
          [ destruct (py_float v) | ]; congruence. }
      injection H as _ <-. subst s2 s1. split; [ reflexivity | left; reflexivity ].
  - injection H as _ <-. subst s1. split; [ reflexivity | left; reflexivity ].
Qed.

(** ** One pass of the polling loop *)

(** A pass whose fetch fails prints the error, and that is all it does. *)
Lemma loop_body_failed s s1 e :
  get_iss_position s = (Raise e, s1) ->
  loop_body s = print "Error updating ISS position: " e s1.
Proof.
  intros G. unfold loop_body. rewrite try_bind, G. reflexivity.
Qed.

(** A pass whose fetch returns counts the sample and then, on the worker
    thread, configures the count label; whatever follows, the pass ends with
    the new count in place. *)
Lemma loop_body_fetched s s1 :
  get_iss_position s = (Ok tt, s1) ->
  exists r w' rest,
    loop_body s =
      (r,
       {| self := with_count (count (self s1) + 1) (self s1);
          world := w';
          log := log s1 ++
                 ev_toolkit
                   (LblConfigure lbl_count
                      (FStr " Count: " (PyInt (count (self s1) + 1)) "" " "))
                   (fst (toolkit
                           (LblConfigure lbl_count
                              (FStr " Count: " (PyInt (count (self s1) + 1)) "" " "))
                           (world s1)))
                 :: rest |}).
Proof.
  intros G. unfold loop_body. rewrite try_bind, G.
  unfold try_except, bind, attr, assign, gui, read, sleep, print, emit, raise,
    put_self, ret.
  cbn.
  run_calls; rewrite <- ?app_assoc; cbn; eexists; eexists; eexists; reflexivity.
Qed.

(** The one exception that can leave a pass is one that the print of the
    handler raises. *)
Lemma loop_body_raises s e :
  fst (loop_body s) = Raise e ->
  exists e0 (w : W), fst (print_line "Error updating ISS position: " e0 w) = Raise e.
Proof.
  unfold loop_body. intros H. apply try_except_raises in H.
  destruct H as (e0 & s1 & _ & H). rewrite print_run in H.
  exists e0, (world s1). exact H.
Qed.

Lemma loop_body_returns s : stdout_takes_errors W -> fst (loop_body s) = Ok tt.
Proof.
  intros P. destruct (fst (loop_body s)) as [[] | e] eqn:E; [ reflexivity | ].
  destruct (loop_body_raises s e E) as (e0 & w & H).
  rewrite P in H. discriminate H.
Qed.

Lemma get_iss_position_running s :
  running (self (snd (get_iss_position s))) = running (self s).
Proof.
  destruct (get_iss_position_effect s) as (r & w & lat & lon & _ & ->). reflexivity.
Qed.

Lemma get_iss_position_count s :
  count (self (snd (get_iss_position s))) = count (self s).
Proof.
  destruct (get_iss_position_effect s) as (r & w & lat & lon & _ & ->). reflexivity.
Qed.

Lemma loop_body_running s :
  running (self (snd (loop_body s))) = running (self s).
Proof.
  pose proof (get_iss_position_running s) as R.
  destruct (get_iss_position s) as [[[] | e] s1] eqn:G; simpl in R.
  - destruct (loop_body_fetched s s1 G) as (r & w' & rest & ->). exact R.
  - rewrite (loop_body_failed s s1 e G), print_run. exact R.
Qed.

Lemma loop_body_count s :
  count (self (snd (loop_body s))) =
  count (self s) + (if fetch_ok s then 1 else 0).
Proof.
  pose proof (get_iss_position_count s) as C. unfold fetch_ok.
  destruct (get_iss_position s) as [[[] | e] s1] eqn:G; simpl in C |- *.
  - destruct (loop_body_fetched s s1 G) as (r & w' & rest & ->). simpl. lia.
  - rewrite (loop_body_failed s s1 e G), print_run. simpl. lia.
Qed.

(** After its fetch a pass adds calls of the toolkit, a sleep or a print to
    the log, and nothing else. *)
Lemma loop_body_filter_after_fetch (f : event -> bool) :
  (forall c r, f (ev_toolkit c r) = false) ->
  (forall secs, f (ev_sleep secs) = false) ->
  (forall msg e, f (ev_print msg e) = false) ->
  forall s,
    filter f (log (snd (loop_body s))) = filter f (log (snd (get_iss_position s))).
Proof.
  intros H2 H3 H4 s. unfold loop_body. rewrite try_bind.
  destruct (get_iss_position s) as [[[] | e] s1]; cbn [snd].
  - revert s1.
    repeat first
      [ apply try_filter; [ | intros ? ]
      | apply bind_filter; [ | intros ? ]
      | apply gui_filter; intros ?; apply H2
      | apply sleep_filter; apply H3
      | apply print_filter; apply H4
      | intros ?; apply read_filter
      | intros ?; reflexivity ].
  - apply print_filter, H4.
Qed.

Lemma loop_body_filter (f : event -> bool) :
  (forall r, f (ev_requests_get URL r) = false) ->
  (forall c r, f (ev_toolkit c r) = false) ->
  (forall secs, f (ev_sleep secs) = false) ->
  (forall msg e, f (ev_print msg e) = false) ->
  forall s, filter f (log (snd (loop_body s))) = filter f (log s).
Proof.
  intros H1 H2 H3 H4 s. rewrite loop_body_filter_after_fetch by assumption.
  apply get_iss_position_filter, H1.
Qed.

(** C4, what the code does. In a pass whose fetch fails the worker makes the
    request and prints the error, and the pass ends as that print does: when it
    returns, the worker is back at the head of the loop. The [sleep] of line
    137 stands inside the [try] block after the fetch and is skipped, so the
    next request follows at once. *)
Theorem failed_pass_does_not_sleep s s1 e :
  get_iss_position s = (Raise e, s1) ->
  exists r,
    loop_body s =
      (fst (print_line "Error updating ISS position: " e (world s1)),
       {| self := self s1;
          world := snd (print_line "Error updating ISS position: " e (world s1));
          log := log s ++ [ev_requests_get URL r;
                           ev_print "Error updating ISS position: " e] |}) /\
    filter is_sleep (log (snd (loop_body s))) = filter is_sleep (log s).
Proof.
  intros G. rewrite (loop_body_failed s s1 e G), print_run.
  destruct (get_iss_position_effect s) as (r & w & lat & lon & _ & Hs1).
  rewrite G in Hs1. simpl in Hs1. exists r. subst s1. simpl.
  rewrite <- app_assoc. simpl. split; [ reflexivity | ].
  rewrite filter_app. simpl. apply app_nil_r.
Qed.

(** C8, what the code does. In a pass whose fetch returns, the first thing
    the worker thread does after counting the sample is to call [configure]
    on the count label itself (lines 126-130); only the marker update goes
    through [root.after]. The pass returns, unless the print of its handler
    raises. *)
Theorem worker_configures_labels_directly s s1 :
  get_iss_position s = (Ok tt, s1) ->
  exists s' r rest,
    snd (loop_body s) = s' /\
    log s' =
      (log s1 ++
       ev_toolkit
         (LblConfigure lbl_count (FStr " Count: " (PyInt (count (self s) + 1)) "" " "))
         r :: rest)%list /\
    existsb touches_ui (skipn (List.length (log s1)) (log s')) = true /\
    (fst (loop_body s) = Ok tt \/
     exists e e0 (w : W),
       fst (loop_body s) = Raise e /\
       fst (print_line "Error updating ISS position: " e0 w) = Raise e).
Proof.
  intros G. destruct (loop_body_fetched s s1 G) as (res & w' & rest & L).
  pose proof (get_iss_position_count s) as C. rewrite G in C. simpl in C.
  rewrite C in L.
  eexists. eexists. exists rest. split; [ rewrite L; reflexivity | ].
  simpl. split; [ reflexivity | ].
  split.
  - rewrite skipn_app, skipn_all, Nat.sub_diag. reflexivity.
  - destruct (fst (loop_body s)) as [[] | e] eqn:E.
    + left. reflexivity.
    + right. destruct (loop_body_raises s e E) as (e0 & w & H).
      exists e, e0, w. split; [ reflexivity | exact H ].
Qed.

(** ** What the log shows of a fetch *)

Lemma coordinates_run position :
  coordinates position =
  match position with
  | PyDict d =>
      match py_float (dict_get d "latitude"), py_float (dict_get d "longitude") with
      | Ok lat, Ok lon => Some (lat, lon)
      | _, _ => None
      end
  | _ => None
  end.
Proof. destruct position; reflexivity. Qed.


(** A fetch returns exactly when its request is a successful fetch in the
    log. *)
Lemma fetch_ok_run s :
  fetch_ok s =
  is_successful_fetch (ev_requests_get URL (fst (requests_get URL (world s)))).
Proof.
  unfold fetch_ok, is_successful_fetch, good_response.
  rewrite get_iss_position_run.
  unfold fetch_position, bind, do_requests_get, lift, json.
  destruct (requests_get URL (world s)) as [[response | e] w]; cbn [fst];
    [ | reflexivity ].
  destruct (raise_for_status response) as [[] | e]; [ | reflexivity ].
  destruct (body response) as [position | ]; [ | reflexivity ].
  rewrite assign_latitude_run, coordinates_run.
  destruct position; cbn [py_get]; try reflexivity.
  destruct (py_float (dict_get d "latitude")) as [lat | e]; [ | reflexivity ].
  rewrite assign_longitude_run. cbn [py_get].
  destruct (py_float (dict_get d "longitude")) as [lon | e]; reflexivity.
Qed.

Lemma get_iss_position_fetched s :
  fetched (log (snd (get_iss_position s))) =
  fetched (log s) + (if fetch_ok s then 1 else 0).
Proof.
  rewrite fetch_ok_run.
  destruct (get_iss_position_effect s) as (r & w & lat & lon & Hg & ->).
  rewrite Hg. cbn [fst log]. unfold fetched.
  rewrite filter_app, length_app. cbn [filter].
  destruct (is_successful_fetch (ev_requests_get URL r)); cbn [List.length]; lia.
Qed.

Lemma loop_body_fetched_count s :
  fetched (log (snd (loop_body s))) =
  fetched (log s) + (if fetch_ok s then 1 else 0).
Proof.
  unfold fetched at 1.
  rewrite loop_body_filter_after_fetch by (intros; reflexivity).
  exact (get_iss_position_fetched s).
Qed.

(** ** Callbacks on the UI thread *)

Lemma quit_run (arts : list pyval) s :
  quit arts s =
  (fst (toolkit RootDestroy (world s)),
   {| self := with_running false (self s);
      world := snd (toolkit RootDestroy (world s));
      log := log s ++ [ev_toolkit RootDestroy (fst (toolkit RootDestroy (world s)))] |}).
Proof.
  unfold quit, bind, assign, gui, put_self. cbn.
  destruct (toolkit RootDestroy (world s)) as [r w]. reflexivity.
Qed.

Lemma call_method_running m args s :
  running (self (snd (call_method m args s))) =
  if is_quit (Ui m args) then false else running (self s).
Proof.
  destruct m; unfold call_method, is_quit.
  - rewrite quit_run. reflexivity.
  - destruct args; [ | reflexivity ].
    unfold update_marker_position, bind, attr, read, gui, do_set_marker, assign,
      put_self. cbn.
    destruct (marker (self s)); cbn; run_calls; reflexivity.
  - destruct args as [ | v [ | ] ]; try reflexivity.
    unfold change_map, gui, ret. destruct v; try reflexivity.
    run_calls; reflexivity.
Qed.

Lemma call_method_count m args s :
  count (self (snd (call_method m args s))) = count (self s).
Proof.
  destruct m; unfold call_method, is_quit.
  - rewrite quit_run. reflexivity.
  - destruct args; [ | reflexivity ].
    unfold update_marker_position, bind, attr, read, gui, do_set_marker, assign,
      put_self. cbn.
    destruct (marker (self s)); cbn; run_calls; reflexivity.
  - destruct args as [ | v [ | ] ]; try reflexivity.
    unfold change_map, gui, ret. destruct v; try reflexivity.
    run_calls; reflexivity.
Qed.

Lemma change_map_filter (f : event -> bool) new_map :
  (forall c r, f (ev_toolkit c r) = false) ->
  forall s, filter f (log (snd (change_map new_map s))) = filter f (log s).
Proof.
  intros H s. unfold change_map, ret. destruct new_map; try reflexivity.
  repeat match goal with
    | |- context [if ?b then _ else _] => destruct b
    end;
    try reflexivity; apply gui_filter; intros r; apply H.
Qed.

Lemma update_marker_position_filter (f : event -> bool) :
  (forall c r, f (ev_toolkit c r) = false) ->
  (forall a r, f (ev_set_marker a r) = false) ->
  forall s, filter f (log (snd (update_marker_position s))) = filter f (log s).
Proof.
  intros H1 H2. unfold update_marker_position.
  apply bind_filter; [ intros s; reflexivity | intros [mk | ] ].
  - repeat first
      [ apply bind_filter; [ | intros ? ]
      | apply gui_filter; intros ?; apply H1
      | intros ?; apply read_filter ].
  - repeat first
      [ apply bind_filter; [ | intros ? ]
      | apply set_marker_filter; intros ?; apply H2
      | intros ?; apply read_filter
      | intros ?; reflexivity ].
Qed.

Lemma quit_filter (f : event -> bool) (arts : list pyval) :
  (forall c r, f (ev_toolkit c r) = false) ->
  forall s, filter f (log (snd (quit arts s))) = filter f (log s).
Proof.
  intros H s. rewrite quit_run. cbn. rewrite filter_app. cbn. rewrite H.
  apply app_nil_r.
Qed.

(** A callback adds calls of the toolkit and of [map.set_marker] to the
    log, and nothing else. *)
Lemma call_method_filter (f : event -> bool) m args :
  (forall c r, f (ev_toolkit c r) = false) ->
  (forall a r, f (ev_set_marker a r) = false) ->
  forall s, filter f (log (snd (call_method m args s))) = filter f (log s).
Proof.
  intros H1 H2 s. destruct m; unfold call_method.
  - rewrite quit_run. cbn. rewrite filter_app. cbn. rewrite H1. apply app_nil_r.
  - destruct args; [ | reflexivity ].
    apply update_marker_position_filter; assumption.
  - destruct args as [ | v [ | ] ]; try reflexivity.
    apply change_map_filter. exact H1.
Qed.

(** ** The worker under a schedule *)

Lemma worker_step_next (c : thread_state * St W) :
  snd (worker_step c) =
  match fst c with
  | InBody => snd (loop_body (snd c))
  | _ => snd c
  end.
Proof.
  destruct c as [[ | | | e] s]; cbn; try reflexivity.
  - destruct (running (self s)); reflexivity.
  - destruct (loop_body s) as [[[] | e] s']; reflexivity.
Qed.

Lemma worker_step_running (c : thread_state * St W) :
  running (self (snd (worker_step c))) = running (self (snd c)).
Proof.
  rewrite worker_step_next. destruct (fst c); try reflexivity.
  apply loop_body_running.
Qed.

(** Only [quit] assigns the flag, and it assigns false. *)
Lemma step_running a (c : thread_state * St W) :
  running (self (snd (step a c))) =
  if is_quit a then false else running (self (snd c)).
Proof.
  destruct a as [ | m args].
  - apply worker_step_running.
  - destruct c as [t s]. apply call_method_running.
Qed.

Lemma exec_running sched (c : thread_state * St W) :
  existsb is_quit sched = false ->
  running (self (snd (exec sched c))) = running (self (snd c)).
Proof.
  revert c. induction sched as [ | a rest IH]; intros c Q; [ reflexivity | ].
  cbn [existsb] in Q. apply orb_false_elim in Q. destruct Q as [Qa Q].
  cbn [exec]. rewrite (IH _ Q), step_running, Qa. reflexivity.
Qed.

Lemma exec_running_down sched (c : thread_state * St W) :
  running (self (snd c)) = false ->
  running (self (snd (exec sched c))) = false.
Proof.
  revert c. induction sched as [ | a rest IH]; intros c R; [ exact R | ].
  cbn [exec]. apply IH. rewrite step_running, R.
  destruct (is_quit a); reflexivity.
Qed.


Lemma step_invariant a (c : thread_state * St W) :
  worker_invariant c -> worker_invariant (step a c).
Proof.
  destruct c as [t s]. destruct a as [ | m args]; unfold worker_invariant.
  - destruct t; cbn; try tauto.
    + intros _. destruct (running (self s)) eqn:R; cbn; [ exact I | exact R ].
    + intros _. pose proof (loop_body_raises s) as L.
      destruct (loop_body s) as [[[] | e] s']; cbn; [ exact I | ].
      apply L. reflexivity.
  - cbn [step fst snd]. destruct t; try tauto.
    intros R. rewrite call_method_running, R.
    destruct (is_quit (Ui m args)); reflexivity.
Qed.

Lemma exec_invariant sched (c : thread_state * St W) :
  worker_invariant c -> worker_invariant (exec sched c).
Proof.
  revert c. induction sched as [ | a rest IH]; intros c A; simpl.
  - exact A.
  - apply IH, step_invariant, A.
Qed.

(** A worker that has left its loop, one way or the other, stays out. *)
Lemma exec_done sched t s :
  match t with Exited | Died _ => True | _ => False end ->
  fst (exec sched (t, s)) = t.
Proof.
  revert s. induction sched as [ | a rest IH]; intros s D; [ reflexivity | ].
  cbn [exec]. destruct a as [ | m args]; destruct t; cbn in D; try contradiction;
    cbn [step worker_step]; apply IH; exact I.
Qed.

(** While the worker is in its loop, every two of its steps are a test and
    a body with its fetch. *)
Lemma exec_turns sched (c : thread_state * St W) :
  fst (exec sched c) = Looping \/ fst (exec sched c) = InBody ->
  (List.length (filter is_worker sched) +
   match fst c with InBody => 1 | _ => 0 end =
   2 * List.length (fetch_outcomes sched c) +
   match fst (exec sched c) with InBody => 1 | _ => 0 end)%nat.
Proof.
  revert c. induction sched as [ | a rest IH]; intros [t s] F.
  - cbn. lia.
  - destruct a as [ | m args].
    + destruct t.
      * cbn [exec step worker_step fetch_outcomes filter is_worker List.length fst]
          in F |- *.
        destruct (running (self s)).
        -- specialize (IH _ F). cbn [fst] in IH. lia.
        -- rewrite exec_done in F by exact I. destruct F; discriminate.
      * cbn [exec step worker_step fetch_outcomes filter is_worker List.length fst]
          in F |- *.
        destruct (loop_body s) as [[[] | e] s'].
        -- specialize (IH _ F). cbn [fst] in IH. lia.
        -- rewrite exec_done in F by exact I. destruct F; discriminate.
      * cbn [exec step worker_step] in F.
        rewrite exec_done in F by exact I. destruct F; discriminate.
      * cbn [exec step worker_step] in F.
        rewrite exec_done in F by exact I. destruct F; discriminate.
    + cbn [exec step fetch_outcomes filter is_worker] in F |- *.
      specialize (IH _ F). cbn [fst] in IH |- *. exact IH.
Qed.

(** [run] hands the worker a tracker with the flag set. *)
Lemma start_thread_running s : running (self (snd (start_thread s))) = true.
Proof. reflexivity. Qed.

Lemma exec_passes_done n t s :
  match t with Exited | Died _ => True | _ => False end ->
  exec (passes n) (t, s) = (t, s).
Proof.
  induction n as [ | n IH]; intros D; [ reflexivity | ].
  cbn [passes exec]. destruct t; cbn in D; try contradiction;
    cbn [step worker_step]; apply IH; exact I.
Qed.

Lemma passes_hold_no_quit n : existsb is_quit (passes n) = false.
Proof. induction n as [ | n IH]; [ reflexivity | exact IH ]. Qed.

Lemma passes_are_worker_steps n :
  List.length (filter is_worker (passes n)) = (2 * n)%nat.
Proof. induction n as [ | n IH]; [ reflexivity | ]. cbn in IH |- *. lia. Qed.

(** The loop of the source, bounded by [fuel], is the worker of the
    schedules left alone for [fuel] passes. *)
Lemma thread_is_exec fuel s :
  update_iss_position_thread fuel s =
  (thread_result (fst (exec (passes fuel) (Looping, s))),
   snd (exec (passes fuel) (Looping, s))).
Proof.
  revert s. induction fuel as [ | n IH]; intros s.
  - reflexivity.
  - cbn [update_iss_position_thread passes exec step worker_step].
    unfold bind at 1, attr at 1.
    destruct (running (self s)).
    + rewrite bind_run. cbn [step worker_step].
      destruct (loop_body s) as [[[] | e] s1].
      * apply IH.
      * rewrite exec_passes_done by exact I. reflexivity.
    + cbn [step worker_step]. rewrite exec_passes_done by exact I. reflexivity.
Qed.

(** C5, as amended. From a start with [self.running] set, under every
    schedule of worker steps and UI callbacks and in every environment, so
    whatever the fetches do: an exception leaves the worker's loop only when
    the print of the handler (line 140) raises it; the worker has left its loop
    by the test only if [quit] was called, and then the flag is false; as long
    as the schedule holds no call of [quit] the flag is still set. When the
    standard output takes every line of the handler, no exception ever leaves
    the loop, without a call of [quit] the worker is still in its loop with
    every two of its steps a test and a body with a fetch, and run by itself
    the loop goes on for as many passes as one cares to count. The loop of the
    source is the worker of the schedules. *)
Theorem polling_loop_stops_only_on_quit sched s :
  running (self s) = true ->
  (forall e, fst (exec sched (Looping, s)) = Died e ->
     exists e0 (w : W),
       fst (print_line "Error updating ISS position: " e0 w) = Raise e) /\
  (fst (exec sched (Looping, s)) = Exited ->
     existsb is_quit sched = true /\
     running (self (snd (exec sched (Looping, s)))) = false) /\
  (existsb is_quit sched = false ->
     running (self (snd (exec sched (Looping, s)))) = true) /\
  (stdout_takes_errors W ->
     (forall e, fst (exec sched (Looping, s)) <> Died e) /\
     (existsb is_quit sched = false ->
        (fst (exec sched (Looping, s)) = Looping \/
         fst (exec sched (Looping, s)) = InBody) /\
        List.length (filter is_worker sched) =
          (2 * List.length (fetch_outcomes sched (Looping, s)) +
           match fst (exec sched (Looping, s)) with InBody => 1 | _ => 0 end)%nat) /\
     (forall fuel,
        update_iss_position_thread fuel s =
          (Ok None, snd (exec (passes fuel) (Looping, s))) /\
        List.length (fetch_outcomes (passes fuel) (Looping, s)) = fuel)) /\
  (forall fuel s0,
     update_iss_position_thread fuel s0 =
       (thread_result (fst (exec (passes fuel) (Looping, s0))),
        snd (exec (passes fuel) (Looping, s0)))).
Proof.
  intros R.
  assert (A : forall sched0, worker_invariant (exec sched0 (Looping, s)))
    by (intros sched0; apply exec_invariant; exact I).
  assert (D : forall sched0 e,
             fst (exec sched0 (Looping, s)) = Died e ->
             exists e0 (w : W),
               fst (print_line "Error updating ISS position: " e0 w) = Raise e).
  { intros sched0 e E. specialize (A sched0). unfold worker_invariant in A.
    rewrite E in A. exact A. }
  assert (Q : forall sched0,
             existsb is_quit sched0 = false ->
             running (self (snd (exec sched0 (Looping, s)))) = true).
  { intros sched0 Q. rewrite exec_running by exact Q. exact R. }
  assert (X : forall sched0,
             fst (exec sched0 (Looping, s)) = Exited ->
             existsb is_quit sched0 = true /\
             running (self (snd (exec sched0 (Looping, s)))) = false).
  { intros sched0 E. specialize (A sched0). unfold worker_invariant in A.
    rewrite E in A. split; [ | exact A ].
    destruct (existsb is_quit sched0) eqn:Q0; [ reflexivity | ].
    rewrite (Q _ Q0) in A. discriminate A. }
  assert (L : stdout_takes_errors W ->
              forall sched0,
                existsb is_quit sched0 = false ->
                fst (exec sched0 (Looping, s)) = Looping \/
                fst (exec sched0 (Looping, s)) = InBody).
  { intros P sched0 Q0.
    destruct (fst (exec sched0 (Looping, s))) as [ | | | e] eqn:E; auto.
    - destruct (X _ E) as [Q1 _]. congruence.
    - destruct (D _ _ E) as (e0 & w & H). rewrite P in H. discriminate H. }
  split; [ apply D | ].
  split; [ apply X | ].
  split; [ apply Q | ].
  split; [ | intros fuel s0; apply thread_is_exec ].
  intros P. split; [ | split ].
  - intros e E. destruct (D _ _ E) as (e0 & w & H). rewrite P in H. discriminate H.
  - intros Q0. split; [ exact (L P _ Q0) | ].
    pose proof (exec_turns sched (Looping, s) (L P _ Q0)) as T.
    cbn [fst] in T. lia.
  - intros fuel.
    pose proof (L P _ (passes_hold_no_quit fuel)) as F.
    pose proof (exec_turns (passes fuel) (Looping, s) F) as T.
    rewrite passes_are_worker_steps in T. cbn [fst] in T.
    rewrite thread_is_exec.
    destruct (fst (exec (passes fuel) (Looping, s)));
      try (destruct F; discriminate); cbn [thread_result]; split;
      first [ reflexivity | lia ].
Qed.

(** ** Construction *)

Lemma init_attributes_run ww hh i s0 s1 :
  init_attributes ww hh i s0 = (Ok tt, s1) ->
  self s1 =
    {| width := ww; height := hh; update_interval := i; running := false;
       update_thread := false; count := 0; marker := None;
       latitude := latitude (self s0); longitude := longitude (self s0) |} /\
  filter is_print (log s1) = filter is_print (log s0) /\
  filter is_set_marker (log s1) = filter is_set_marker (log s0).
Proof.
  unfold init_attributes, bind, assign, gui, put_self. cbn.
  run_calls; intros H; try discriminate H.
  injection H as <-. cbn.
  rewrite !filter_app. cbn. rewrite !app_nil_r. auto.
Qed.

(** C2, what the code does. [__init__] calls [get_iss_position] outside
    any [try] (line 69). When that first fetch fails, its exception leaves the
    constructor: no tracker is made, no marker is placed at (0, 0) or anywhere
    else, and nothing is printed. The fallback of [initialize_marker] is
    never reached. *)
Theorem startup_fetch_failure_escapes ww hh i (w0 : W) s1 s2 e :
  init_attributes ww hh i {| self := blank; world := w0; log := [] |} = (Ok tt, s1) ->
  get_iss_position s1 = (Raise e, s2) ->
  ISSTracker ww hh i w0 = (Raise e, s2) /\
  marker (self s2) = None /\
  filter is_set_marker (log s2) = [] /\
  filter is_print (log s2) = [].
Proof.
  intros H1 H2.
  split.
  - unfold ISSTracker, __init__. rewrite bind_run, H1, bind_run, H2. reflexivity.
  - destruct (init_attributes_run _ _ _ _ _ H1) as (Hself & Hp & Hm).
    destruct (get_iss_position_effect s1) as (r & w & lat & lon & _ & Hs2).
    rewrite H2 in Hs2. simpl in Hs2. subst s2. simpl.
    rewrite !filter_app, Hp, Hm, Hself. simpl. auto.
Qed.

(** ** The count of a new tracker *)

(** [create_widgets] assigns widget attributes only: the attributes that
    hold data are as they were. *)
Lemma create_widgets_self s : self (snd (create_widgets s)) = self s.
Proof.
  unfold create_widgets, bind, gui, attr, read. cbn.
  run_calls; reflexivity.
Qed.

Lemma initialize_marker_count s :
  count (self (snd (initialize_marker s))) = count (self s).
Proof.
  unfold initialize_marker, try_except, bind, read, do_set_marker, assign, print,
    put_self. cbn.
  run_calls; reflexivity.
Qed.

(** The fetch of [__init__] is not counted: a tracker starts at zero, with
    the flag down. *)
Lemma constructed_count_is_zero ww hh i (w0 : W) t s :
  ISSTracker ww hh i w0 = (Ok t, s) -> count t = 0.
Proof.
  unfold ISSTracker, __init__. rewrite bind_run.
  destruct (init_attributes ww hh i _) as [[[] | e] s1] eqn:H1; [ | discriminate ].
  destruct (init_attributes_run _ _ _ _ _ H1) as (Hself & _).
  rewrite bind_run.
  pose proof (get_iss_position_count s1) as C1.
  destruct (get_iss_position s1) as [[[] | e] s2]; [ | discriminate ].
  rewrite bind_run.
  pose proof (create_widgets_self s2) as C2.
  destruct (create_widgets s2) as [[[] | e] s3]; [ | discriminate ].
  pose proof (initialize_marker_count s3) as C3.
  destruct (initialize_marker s3) as [[[] | e] s4]; [ | discriminate ].
  intros H. injection H as <- <-. simpl in *.
  rewrite C3, C2, C1, Hself. reflexivity.
Qed.

Lemma init_attributes_fetched ww hh i s :
  fetched (log (snd (init_attributes ww hh i s))) = fetched (log s).
Proof.
  unfold fetched. do 2 f_equal. revert s. unfold init_attributes. quiet.
Qed.

Lemma create_widgets_fetched s :
  fetched (log (snd (create_widgets s))) = fetched (log s).
Proof.
  unfold fetched. do 2 f_equal. revert s. unfold create_widgets. quiet.
Qed.

Lemma initialize_marker_fetched s :
  fetched (log (snd (initialize_marker s))) = fetched (log s).
Proof.
  unfold fetched. do 2 f_equal. revert s. unfold initialize_marker. quiet.
Qed.

(** It is a fetch all the same: the log of a new tracker holds one
    successful fetch. *)
Lemma constructed_fetched ww hh i (w0 : W) t s :
  ISSTracker ww hh i w0 = (Ok t, s) -> fetched (log s) = 1.
Proof.
  unfold ISSTracker, __init__. rewrite bind_run.
  pose proof (init_attributes_fetched ww hh i
                {| self := blank; world := w0; log := [] |}) as F1.
  destruct (init_attributes ww hh i _) as [[[] | e] s1]; [ | discriminate ].
  rewrite bind_run.
  pose proof (get_iss_position_fetched s1) as F2. unfold fetch_ok in F2.
  destruct (get_iss_position s1) as [[[] | e] s2]; [ | discriminate ].
  rewrite bind_run.
  pose proof (create_widgets_fetched s2) as F3.
  destruct (create_widgets s2) as [[[] | e] s3]; [ | discriminate ].
  pose proof (initialize_marker_fetched s3) as F4.
  destruct (initialize_marker s3) as [[[] | e] s4]; [ | discriminate ].
  intros H. injection H as _ <-. cbn [fst snd log] in *.
  rewrite F4, F3, F2, F1. reflexivity.
Qed.

Lemma successes_cons b l :
  successes (b :: l) = (if b then 1 else 0) + successes l.
Proof.
  unfold successes. simpl. destruct b; simpl List.length; lia.
Qed.

(** Under a schedule the count and the successful fetches of the log grow
    together, by the bodies whose fetch returned. *)
Lemma exec_counts sched (c : thread_state * St W) :
  count (self (snd (exec sched c))) =
    count (self (snd c)) + successes (fetch_outcomes sched c) /\
  fetched (log (snd (exec sched c))) =
    fetched (log (snd c)) + successes (fetch_outcomes sched c).
Proof.
  revert c. induction sched as [ | a rest IH]; intros [t s].
  - unfold successes. simpl. lia.
  - cbn [exec fetch_outcomes]. destruct (IH (step a (t, s))) as [IH1 IH2].
    rewrite IH1, IH2. clear IH IH1 IH2.
    destruct a as [ | m args].
    + cbn [step]. rewrite worker_step_next. cbn [fst snd].
      destruct t; try (split; reflexivity).
      rewrite successes_cons, loop_body_count, loop_body_fetched_count. lia.
    + cbn [step snd]. rewrite call_method_count.
      unfold fetched at 1. rewrite call_method_filter by (intros; reflexivity).
      fold (fetched (log s)). destruct t; split; reflexivity.
Qed.

(** C6, as amended. Under every schedule and in every environment the
    sample count at the end is the count at the start plus the number of
    bodies of the loop whose fetch returned: one more for each fetch of the
    loop that succeeds, nothing for one that fails, and no callback of the UI
    thread touches it, so it is never reset; the successful fetches that the
    log shows grow by the same number. For a tracker that the constructor has
    built and [run] has started, the count is the number of successful fetches
    of the polling loop, which is one less than the number of successful
    fetches of the run: the fetch of line 69 succeeded and was not counted. *)
Theorem count_is_number_of_successful_fetches sched :
  (forall c : thread_state * St W,
     count (self (snd (exec sched c))) =
     count (self (snd c)) + successes (fetch_outcomes sched c)) /\
  (forall c : thread_state * St W,
     fetched (log (snd (exec sched c))) =
     fetched (log (snd c)) + successes (fetch_outcomes sched c)) /\
  (forall ww hh i (w0 : W) t s0,
     ISSTracker ww hh i w0 = (Ok t, s0) ->
     count (self (snd (exec sched (Looping, snd (start_thread s0))))) =
       successes (fetch_outcomes sched (Looping, snd (start_thread s0))) /\
     fetched (log (snd (exec sched (Looping, snd (start_thread s0))))) =
       count (self (snd (exec sched (Looping, snd (start_thread s0))))) + 1).
Proof.
  split; [ intros c; apply exec_counts | ].
  split; [ intros c; apply exec_counts | ].
  intros ww hh i w0 t s0 H.
  destruct (exec_counts sched (Looping, snd (start_thread s0))) as [G1 G2].
  rewrite G1, G2. cbn [snd].
  pose proof (constructed_count_is_zero _ _ _ _ _ _ H) as Z0.
  pose proof (constructed_fetched _ _ _ _ _ _ H) as F0.
  assert (E : self s0 = t).
  { unfold ISSTracker in H.
    destruct (__init__ ww hh i _) as [[[] | e] s']; [ | discriminate H ].
    injection H as <- <-. reflexivity. }
  assert (C : count (self (snd (start_thread s0))) = 0).
  { unfold start_thread, bind, assign, emit, put_self. cbn. rewrite E. exact Z0. }
  assert (F : fetched (log (snd (start_thread s0))) = 1).
  { unfold start_thread, bind, assign, emit, put_self, fetched. cbn.
    rewrite filter_app, length_app. cbn. unfold fetched in F0. lia. }
  rewrite C, F. lia.
Qed.

(** ** quit *)

(** C7, as amended. After a call of [quit] the running flag is false, and
    it is false after a second call; each call returns or raises exactly as
    its [root.destroy()] does, for [quit] does nothing else that can fail and
    has no guard against a window that is already gone. *)
Theorem quit_twice (a1 a2 : list pyval) s :
  running (self (snd (quit a1 s))) = false /\
  running (self (snd (quit a2 (snd (quit a1 s))))) = false /\
  fst (quit a1 s) = fst (toolkit RootDestroy (world s)) /\
  fst (quit a2 (snd (quit a1 s))) =
    fst (toolkit RootDestroy (snd (toolkit RootDestroy (world s)))).
Proof.
  rewrite !quit_run. simpl. auto.
Qed.

(** C9. [quit(self, *arts)] takes any positional arguments and ignores
    them: called with none (the WM_DELETE_WINDOW protocol) or with an event
    (the Escape binding) or with anything else it does what [quit()] does,
    and its outcome is that of [root.destroy()], never an error about the
    arguments. *)
Theorem quit_accepts_any_arguments (args : list pyval) s :
  call_method m_quit args s = call_method m_quit [] s /\
  fst (call_method m_quit args s) = fst (toolkit RootDestroy (world s)).
Proof.
  unfold call_method. rewrite !quit_run. split; reflexivity.
Qed.

(** A method without [*args] is not so forgiving. *)
Lemma update_marker_position_takes_no_argument (event : pyval) s :
  call_method m_update_marker_position [event] s = (Raise TypeError, s).
Proof. reflexivity. Qed.

(** ** Snapshots of the position *)

(** The two steps of the writer are the two assignments of
    [get_iss_position]: run without interruption they leave the state the
    call leaves. *)
Lemma writer_steps_are_the_call position s n :
  shared (interleave [worker_thread; worker_thread] (start s [position] n)) =
  snd (bind (assign_latitude position) (fun _ => assign_longitude position) s).
Proof.
  rewrite bind_run. unfold interleave, micro_step, start.
  unfold writer_step at 2. cbn [pending wpc shared].
  destruct (assign_latitude position s) as [[[] | e] s1]; reflexivity.
Qed.

(** The two steps of the reader are the two loads of
    [update_marker_position]: what an uninterrupted snapshot observes is what
    the method hands to the marker. *)
Lemma reader_steps_are_the_loads s mk lat lon :
  marker (self s) = Some mk ->
  observed (interleave [ui_thread; ui_thread] (start s [] 1)) = [(lat, lon)] ->
  exists r rest,
    log (snd (update_marker_position s)) =
    (log s ++ ev_toolkit (MarkerSetPosition mk (PyFloat lat) (PyFloat lon)) r
     :: rest)%list.
Proof.
  intros Hm. unfold interleave, micro_step, start, reader_step, read; cbn.
  unfold update_marker_position, bind, attr, read, gui. cbn. rewrite Hm.
  destruct (latitude (self s)) as [a | ]; cbn; [ | intros H; discriminate H ].
  destruct (longitude (self s)) as [b | ]; cbn; [ | intros H; discriminate H ].
  intros H.
  assert (E : (a, b) = (lat, lon)) by congruence.
  apply (f_equal fst) in E as Ea. apply (f_equal snd) in E as Eb.
  cbn in Ea, Eb. subst a b.
  run_calls; rewrite <- ?app_assoc; cbn; eexists; eexists; reflexivity.
Qed.

Lemma coordinates_of_latitude position v lat :
  py_get position "latitude" = Ok v ->
  py_float v = Ok lat ->
  half_written position = false ->
  exists lon, coordinates position = Some (lat, lon).
Proof.
  unfold half_written, coordinates. intros G H1 H.
  destruct position; try discriminate G.
  cbn [py_get] in *. injection G as <-. rewrite H1 in *.
  destruct (py_float (dict_get d "longitude")) as [lon | e]; [ | discriminate H ].
  exists lon. reflexivity.
Qed.

Lemma assign_longitude_of_coordinates position lat lon s :
  coordinates position = Some (lat, lon) ->
  assign_longitude position s = (Ok tt, put_self (with_longitude lon (self s)) s).
Proof.
  unfold coordinates. intros H. rewrite assign_longitude_run.
  destruct (py_get position "latitude") as [v1 | ]; [ | discriminate H ].
  destruct (py_get position "longitude") as [v2 | ]; [ | discriminate H ].
  destruct (py_float v1); [ | discriminate H ].
  destruct (py_float v2); [ | discriminate H ].
  injection H as _ <-. reflexivity.
Qed.

Lemma written_tail position rest :
  incl (written rest) (written (position :: rest)).
Proof.
  simpl. destruct (coordinates position) as [[lat lon] | ].
  - apply incl_tl, incl_refl.
  - apply incl_refl.
Qed.

Lemma written_head position rest lat lon :
  coordinates position = Some (lat, lon) ->
  In (Some lat, Some lon) (written (position :: rest)).
Proof. intros H. simpl. rewrite H. left. reflexivity. Qed.

Lemma writer_step_consistent allowed (c : config W) :
  rpc c = at_first -> consistent allowed c -> consistent allowed (writer_step c).
Proof.
  intros Hr C. pose proof C as (Hobs & Hpend & Hhalf & Hw & _).
  unfold writer_step.
  destruct (pending c) as [ | position rest] eqn:P.
  { exact C. }
  simpl in Hhalf. apply andb_prop in Hhalf. destruct Hhalf as [Hp Hrest].
  apply negb_true_iff in Hp.
  destruct (wpc c) eqn:PC.
  - rewrite assign_latitude_run.
    destruct (py_get position "latitude") as [v | e] eqn:G;
      [ destruct (py_float v) as [lat | e] eqn:F | ].
    + destruct (coordinates_of_latitude _ _ _ G F Hp) as (lon & Hc).
      unfold consistent. cbn. rewrite Hr.
      repeat split; try assumption.
      * cbn. rewrite Hp, Hrest. reflexivity.
      * exists position, rest, lat, lon. auto.
    + unfold consistent. cbn. rewrite Hr.
      repeat split; try assumption.
      eapply incl_tran; [ apply written_tail | exact Hpend ].
    + unfold consistent. cbn. rewrite Hr.
      repeat split; try assumption.
      eapply incl_tran; [ apply written_tail | exact Hpend ].
  - destruct Hw as (p & rest' & lat & lon & E & Hc & Hlat & _).
    injection E as <- <-.
    rewrite (assign_longitude_of_coordinates _ _ _ _ Hc).
    unfold consistent. cbn. rewrite Hr.
    repeat split; try assumption.
    + eapply incl_tran; [ apply written_tail | exact Hpend ].
    + unfold position_of. cbn. rewrite Hlat.
      apply Hpend. apply written_head. exact Hc.
Qed.

Lemma reader_step_consistent allowed (c : config W) :
  wpc c = at_latitude -> consistent allowed c -> consistent allowed (reader_step c).
Proof.
  intros Hw C. pose proof C as (Hobs & Hpend & Hhalf & Hpos & Hr).
  rewrite Hw in Hpos.
  unfold reader_step.
  destruct (snapshots c) as [ | n].
  { exact C. }
  destruct (rpc c) as [ | lat] eqn:PC.
  - unfold read. destruct (latitude (self (shared c))) as [lat | ] eqn:L;
      unfold consistent; cbn; rewrite Hw; repeat split; auto.
  - destruct Hr as (_ & Hlat).
    unfold read. destruct (longitude (self (shared c))) as [lon | ] eqn:L;
      unfold consistent; cbn; rewrite Hw; repeat split; auto.
    intros lat' lon' Hin. apply in_app_or in Hin. destruct Hin as [Hin | Hin].
    + apply Hobs, Hin.
    + destruct Hin as [E | []]. injection E as <- <-.
      unfold position_of in Hpos. rewrite Hlat, L in Hpos. exact Hpos.
Qed.

Lemma interleave_consistent allowed sched (c : config W) :
  serial sched c = true ->
  consistent allowed c ->
  consistent allowed (interleave sched c).
Proof.
  revert c. induction sched as [ | t rest IH]; intros c S C.
  - exact C.
  - cbn [serial] in S. cbn [interleave].
    destruct t.
    + destruct (rpc c) eqn:R; [ | discriminate S ].
      apply IH; [ exact S | ]. apply writer_step_consistent; assumption.
    + destruct (wpc c) eqn:P.
      * apply IH; [ destruct (rpc c); exact S | ].
        apply reader_step_consistent; assumption.
      * destruct (rpc c); discriminate S.
Qed.

(** C1, as amended. When no thread is preempted between its two accesses
    (the worker between its two assignments, the UI thread between its two
    loads) and no call fails between the two assignments, every snapshot pairs
    a latitude and a longitude written by one and the same call, or the pair
    in place at the start. The program has no lock to make it so. *)
Theorem serial_snapshots_are_not_torn sched s (positions : list pyval) n :
  serial sched (start s positions n) = true ->
  forallb (fun p => negb (half_written p)) positions = true ->
  forall lat lon,
    In (lat, lon) (observed (interleave sched (start s positions n))) ->
    In (Some lat, Some lon) (position_of s :: written positions).
Proof.
  intros S H.
  assert (C : consistent (position_of s :: written positions)
                (start s positions n)).
  { unfold consistent, start; cbn.
    repeat split; auto.
    - intros ? ? [].
    - apply incl_tl, incl_refl. }
  destruct (interleave_consistent _ _ _ S C) as (Hobs & _). exact Hobs.
Qed.

End Properties.

(** * Concrete runs *)

Lemma float_neq (x y : float) :
  PrimFloat.eqb x y = false -> PrimFloat.eqb y y = true -> x <> y.
Proof. intros H1 H2 E. subst x. congruence. Qed.

Lemma Some_neq (x y : float) : x <> y -> Some x <> Some y.
Proof.
  intros N E. apply N.
  exact (f_equal (fun o => match o with Some v => v | None => x end) E).
Qed.

(** C10 on a run: a reply with position (3, 4) reaches a tracker at (1, 2). *)
Lemma get_iss_position_frame_witness :
  get_iss_position (state_at 1 2 [reply_3_4]) =
    (Ok tt, snd (get_iss_position (state_at 1 2 [reply_3_4]))) /\
  ((exists lat lon,
      self (snd (get_iss_position (state_at 1 2 [reply_3_4]))) =
      with_longitude lon (with_latitude lat (tracker_at 1 2))) /\
   count (self (snd (get_iss_position (state_at 1 2 [reply_3_4])))) = 0).
Proof.
  assert (G : get_iss_position (state_at 1 2 [reply_3_4]) =
              (Ok tt, snd (get_iss_position (state_at 1 2 [reply_3_4]))))
    by reflexivity.
  split; [ exact G | ].
  destruct (get_iss_position_frame _ _ G) as (H & C & _).
  split; [ exact H | exact C ].
Defined.

(** C3 as stated fails: the reply holds a latitude and no longitude; the
    call raises TypeError at line 116 and the latitude stored is the new one,
    3 where it was 1, next to the old longitude. *)
Lemma failed_fetch_overwrites_latitude :
  get_iss_position (state_at 1 2 [reply_without_longitude]) =
    (Raise TypeError,
     {| self := with_latitude 3 (tracker_at 1 2);
        world := running_world [];
        log := [ev_requests_get URL reply_without_longitude] |}) /\
  latitude (self (snd (get_iss_position (state_at 1 2 [reply_without_longitude]))))
    = Some 3%float /\
  longitude (self (snd (get_iss_position (state_at 1 2 [reply_without_longitude]))))
    = Some 2%float /\
  latitude (self (snd (get_iss_position (state_at 1 2 [reply_without_longitude]))))
    <> latitude (self (state_at 1 2 [reply_without_longitude])).
Proof.
  repeat split.
  cbn. apply Some_neq, float_neq; reflexivity.
Qed.

Lemma failed_fetch_position_witness :
  get_iss_position (state_at 1 2 [reply_without_longitude]) =
    (Raise TypeError, snd (get_iss_position (state_at 1 2 [reply_without_longitude]))) /\
  longitude (self (snd (get_iss_position (state_at 1 2 [reply_without_longitude]))))
    = longitude (self (state_at 1 2 [reply_without_longitude])).
Proof.
  assert (G : get_iss_position (state_at 1 2 [reply_without_longitude]) =
              (Raise TypeError,
               snd (get_iss_position (state_at 1 2 [reply_without_longitude]))))
    by reflexivity.
  split; [ exact G | ].
  exact (proj1 (failed_fetch_position _ _ _ G)).
Defined.

(** C4 on a run: no network. *)
Lemma failed_pass_does_not_sleep_witness :
  get_iss_position (state_at 1 2 []) =
    (Raise ConnectionError, snd (get_iss_position (state_at 1 2 []))) /\
  filter is_sleep (log (snd (loop_body (state_at 1 2 [])))) = [].
Proof.
  assert (G : get_iss_position (state_at 1 2 []) =
              (Raise ConnectionError, snd (get_iss_position (state_at 1 2 []))))
    by reflexivity.
  split; [ exact G | ].
  destruct (failed_pass_does_not_sleep _ _ _ G) as (r & _ & H).
  exact H.
Defined.

(** Two passes without network: request, print, request, print. *)
Example two_failed_passes :
  log (snd (exec (passes 2) (Looping, state_at 1 2 []))) =
  [ev_requests_get URL (Raise ConnectionError);
   ev_print "Error updating ISS position: " ConnectionError;
   ev_requests_get URL (Raise ConnectionError);
   ev_print "Error updating ISS position: " ConnectionError].
Proof. reflexivity. Qed.

(** A pass that succeeds, in full: three labels configured by the worker,
    one callback queued, one sleep. *)
Example one_successful_pass :
  log (snd (loop_body (state_at 1 2 [reply_3_4]))) =
  [ev_requests_get URL reply_3_4;
   ev_toolkit (LblConfigure lbl_count (FStr " Count: " (PyInt 1) "" " ")) (Ok tt);
   ev_toolkit (LblConfigure lbl_lat (FStr " Latitude: " (PyFloat 3) ".4f" " ")) (Ok tt);
   ev_toolkit (LblConfigure lbl_lon (FStr " Longitude: " (PyFloat 4) ".4f" " ")) (Ok tt);
   ev_toolkit (RootAfter 0 m_update_marker_position) (Ok tt);
   ev_sleep 10].
Proof. reflexivity. Qed.

(** C8 on a run. *)
Lemma worker_configures_labels_directly_witness :
  get_iss_position (state_at 1 2 [reply_3_4]) =
    (Ok tt, snd (get_iss_position (state_at 1 2 [reply_3_4]))) /\
  exists s' r rest,
    loop_body (state_at 1 2 [reply_3_4]) = (Ok tt, s') /\
    log s' =
      (log (snd (get_iss_position (state_at 1 2 [reply_3_4]))) ++
       ev_toolkit (LblConfigure lbl_count (FStr " Count: " (PyInt 1) "" " ")) r
       :: rest)%list.
Proof.
  assert (G : get_iss_position (state_at 1 2 [reply_3_4]) =
              (Ok tt, snd (get_iss_position (state_at 1 2 [reply_3_4]))))
    by reflexivity.
  split; [ exact G | ].
  destruct (worker_configures_labels_directly _ _ G)
    as (s' & r & rest & H1 & H2 & _).
  exists s', r, rest. split; [ rewrite <- H1; reflexivity | exact H2 ].
Defined.

(** C5 on a run: a pass whose fetch fails, a pass whose fetch returns, a
    marker update, a pass whose fetch fails. *)
Lemma polling_loop_stops_only_on_quit_witness :
  running (self (state_at 1 2 [Raise ReadTimeout; reply_3_4])) = true /\
  stdout_takes_errors TkWorld /\
  fst (exec [Worker; Worker; Worker; Worker; Ui m_update_marker_position [];
             Worker; Worker]
         (Looping, state_at 1 2 [Raise ReadTimeout; reply_3_4])) = Looping /\
  List.length
    (fetch_outcomes [Worker; Worker; Worker; Worker; Ui m_update_marker_position [];
                     Worker; Worker]
       (Looping, state_at 1 2 [Raise ReadTimeout; reply_3_4])) = 3%nat.
Proof.
  assert (R : running (self (state_at 1 2 [Raise ReadTimeout; reply_3_4])) = true)
    by reflexivity.
  assert (P : stdout_takes_errors TkWorld) by (intros e w; reflexivity).
  split; [ exact R | split; [ exact P | ] ].
  destruct (polling_loop_stops_only_on_quit
              [Worker; Worker; Worker; Worker; Ui m_update_marker_position [];
               Worker; Worker] _ R)
    as (_ & _ & _ & H & _).
  destruct (H P) as (_ & H2 & _).
  destruct (H2 eq_refl) as [[L | B] T].
  - rewrite L in T |- *. split; [ reflexivity | ].
    cbn [filter is_worker List.length] in T. lia.
  - exfalso. revert B. vm_compute. intros B. discriminate B.
Defined.

(** C5 as stated fails when the standard output is closed: the fetch fails,
    the handler catches the ConnectionError, its [print] raises ValueError,
    and that exception ends the loop and the thread with the flag still set
    and no call of [quit]. *)
Lemma print_error_ends_the_loop :
  running (self (state_without_stdout [])) = true /\
  existsb is_quit (passes 1) = false /\
  exec (passes 1) (Looping, state_without_stdout []) =
    (Died ValueError,
     {| self := tracker_at 1 2;
        world := {| tk := running_world [] |};
        log := [ev_requests_get URL (Raise ConnectionError);
                ev_print "Error updating ISS position: " ConnectionError] |}) /\
  fst (update_iss_position_thread 5 (state_without_stdout [])) = Raise ValueError /\
  running (self (snd (update_iss_position_thread 5 (state_without_stdout [])))) = true /\
  List.length
    (filter is_request
       (log (snd (update_iss_position_thread 5 (state_without_stdout []))))) = 1%nat.
Proof. repeat split. Qed.

(** C6 on a run: the constructor fetches once, then the loop makes three
    passes of which the second fails; the count is two, one less than the
    successful fetches of the log. *)
Lemma count_is_number_of_successful_fetches_witness :
  ISSTracker 2048 1536 10 (tk_world [reply_3_4; reply_3_4; Raise ReadTimeout; reply_3_4]) =
    (Ok (self (snd (ISSTracker 2048 1536 10
                      (tk_world [reply_3_4; reply_3_4; Raise ReadTimeout; reply_3_4])))),
     snd (ISSTracker 2048 1536 10
            (tk_world [reply_3_4; reply_3_4; Raise ReadTimeout; reply_3_4]))) /\
  count (self (snd counted_run)) = successes [true; false; true] /\
  fetched (log (snd counted_run)) = count (self (snd counted_run)) + 1.
Proof.
  assert (H : ISSTracker 2048 1536 10
                (tk_world [reply_3_4; reply_3_4; Raise ReadTimeout; reply_3_4]) =
              (Ok (self (snd (ISSTracker 2048 1536 10
                                (tk_world [reply_3_4; reply_3_4;
                                           Raise ReadTimeout; reply_3_4])))),
               snd (ISSTracker 2048 1536 10
                      (tk_world [reply_3_4; reply_3_4; Raise ReadTimeout; reply_3_4]))))
    by (vm_compute; reflexivity).
  split; [ exact H | ].
  destruct (proj2 (proj2 (count_is_number_of_successful_fetches (passes 3)))
              _ _ _ _ _ _ H) as [C F].
  split; [ | exact F ].
  unfold counted_run. rewrite C. vm_compute. reflexivity.
Defined.

(** C6 as stated fails on every run: here the log holds four requests of
    which three are successful fetches, the first of them made by [__init__],
    and the count is two. *)
Lemma startup_fetch_is_not_counted :
  filter is_request (log (snd counted_run)) =
    [ev_requests_get URL reply_3_4; ev_requests_get URL reply_3_4;
     ev_requests_get URL (Raise ReadTimeout); ev_requests_get URL reply_3_4] /\
  filter is_successful_fetch (log (snd counted_run)) =
    [ev_requests_get URL reply_3_4; ev_requests_get URL reply_3_4;
     ev_requests_get URL reply_3_4] /\
  fetched (log (snd counted_run)) = 3 /\
  count (self (snd counted_run)) = 2 /\
  fst counted_run = Looping.
Proof. vm_compute. repeat split. Qed.

(** A run with a call of quit: the test after it finds the flag down. *)
Example worker_exits_after_quit :
  fst (exec [Worker; Worker; Ui m_quit [PyStr "<Escape>"]; Worker]
         (Looping, state_at 1 2 [reply_3_4])) = Exited.
Proof. reflexivity. Qed.

(** A call of quit between the test and the body: the pass goes on, its
    fetch is made, stored and counted, its labels are gone with the window,
    and the next test ends the loop. *)
Example pass_in_flight_at_quit :
  exec [Worker; Ui m_quit []; Worker; Worker] (Looping, state_at 1 2 [reply_3_4]) =
  (Exited,
   {| self := with_running false (with_count 1 (tracker_at 3 4));
      world := {| replies := []; destroyed := true; markers := 1 |};
      log := [ev_toolkit RootDestroy (Ok tt);
              ev_requests_get URL reply_3_4;
              ev_toolkit (LblConfigure lbl_count (FStr " Count: " (PyInt 1) "" " "))
                (Raise TclError);
              ev_print "Error updating ISS position: " TclError] |}).
Proof. reflexivity. Qed.

(** C7 as stated fails in an environment that treats a destroyed window as
    Tk does: the first call of quit returns, the second raises TclError. *)
Lemma second_quit_raises :
  fst (quit [] (state_at 1 2 [])) = Ok tt /\
  running (self (snd (quit [] (state_at 1 2 [])))) = false /\
  fst (quit [] (snd (quit [] (state_at 1 2 [])))) = Raise TclError.
Proof. repeat split. Qed.

(** C2 on a run: no network at startup. *)
Lemma startup_fetch_failure_escapes_witness :
  init_attributes 2048 1536 10 fresh_state =
    (Ok tt, snd (init_attributes 2048 1536 10 fresh_state)) /\
  get_iss_position (snd (init_attributes 2048 1536 10 fresh_state)) =
    (Raise ConnectionError,
     snd (get_iss_position (snd (init_attributes 2048 1536 10 fresh_state)))) /\
  fst (ISSTracker 2048 1536 10 (tk_world [])) = Raise ConnectionError.
Proof.
  assert (H1 : init_attributes 2048 1536 10 fresh_state =
               (Ok tt, snd (init_attributes 2048 1536 10 fresh_state)))
    by reflexivity.
  assert (H2 : get_iss_position (snd (init_attributes 2048 1536 10 fresh_state)) =
               (Raise ConnectionError,
                snd (get_iss_position
                       (snd (init_attributes 2048 1536 10 fresh_state)))))
    by reflexivity.
  split; [ exact H1 | split; [ exact H2 | ] ].
  rewrite (proj1 (startup_fetch_failure_escapes _ _ _ _ _ _ _ H1 H2)).
  reflexivity.
Defined.

(** The run of the specification: of five fetches the third fails. The
    position at the end is that of the fifth, the count is four, and the
    failed pass did not sleep. *)
Example five_fetches_third_fails :
  self (snd (exec (passes 5)
               (Looping,
                state_at 1 2 [reply_3_4; reply_3_4; Raise ReadTimeout; reply_3_4;
                              reply 200 [("latitude", PyFloat 5);
                                         ("longitude", PyFloat 6)]]))) =
    with_count 4 (tracker_at 5 6) /\
  List.length
    (filter is_sleep
       (log (snd (exec (passes 5)
                    (Looping,
                     state_at 1 2 [reply_3_4; reply_3_4; Raise ReadTimeout; reply_3_4;
                                   reply 200 [("latitude", PyFloat 5);
                                              ("longitude", PyFloat 6)]]))))) = 4%nat.
Proof. split; reflexivity. Qed.

(** With a network the constructor returns a tracker at the position fetched,
    its count at zero. *)
Example startup_with_network :
  fst (ISSTracker 2048 1536 10 (tk_world [reply_3_4])) =
  Ok {| width := 2048; height := 1536; update_interval := 10; running := false;
        update_thread := false; count := 0; marker := Some 0%nat;
        latitude := Some 3%float; longitude := Some 4%float |}.
Proof. reflexivity. Qed.

(** C1 as stated fails: the worker writes (1, 2), then the latitude of
    (3, 4); the UI thread takes its snapshot; the worker writes the longitude.
    The snapshot is (3, 2), a pair that no call wrote. Neither call stops half
    way: the interleaving alone tears the pair. *)
Lemma torn_snapshot :
  observed
    (interleave [worker_thread; worker_thread; worker_thread;
                 ui_thread; ui_thread; worker_thread]
       (start fresh_state [position_1_2; position_3_4] 1))
    = [(3%float, 2%float)] /\
  position_of fresh_state :: written [position_1_2; position_3_4] =
    [(None, None); (Some 1%float, Some 2%float); (Some 3%float, Some 4%float)] /\
  forallb (fun p => negb (half_written p)) [position_1_2; position_3_4] = true /\
  serial [worker_thread; worker_thread; worker_thread;
          ui_thread; ui_thread; worker_thread]
    (start fresh_state [position_1_2; position_3_4] 1) = false /\
  ~ In (Some 3%float, Some 2%float)
      (position_of fresh_state :: written [position_1_2; position_3_4]).
Proof.
  split; [ reflexivity | ].
  split; [ reflexivity | ].
  split; [ reflexivity | ].
  split; [ reflexivity | ].
  cbn. intros [H | [H | [H | []]]].
  - discriminate H.
  - apply (f_equal fst) in H. revert H. apply Some_neq, float_neq; reflexivity.
  - apply (f_equal snd) in H. revert H. apply Some_neq, float_neq; reflexivity.
Qed.

(** The other way to a torn pair needs no preemption: a call that stops
    between its two assignments leaves the new latitude beside the old
    longitude for the next snapshot, however serial the schedule. *)
Example half_written_call_tears_a_serial_snapshot :
  serial [worker_thread; worker_thread; worker_thread; worker_thread;
          ui_thread; ui_thread]
    (start fresh_state [position_1_2; PyDict [("latitude", PyFloat 3)]] 1) = true /\
  observed
    (interleave [worker_thread; worker_thread; worker_thread; worker_thread;
                 ui_thread; ui_thread]
       (start fresh_state [position_1_2; PyDict [("latitude", PyFloat 3)]] 1))
    = [(3%float, 2%float)] /\
  written [position_1_2; PyDict [("latitude", PyFloat 3)]] =
    [(Some 1%float, Some 2%float)].
Proof. repeat split. Qed.

(** C1 as amended, on a run: the same two calls and a snapshot after each. *)
Lemma serial_snapshots_are_not_torn_witness :
  serial [worker_thread; worker_thread; ui_thread; ui_thread;
          worker_thread; worker_thread; ui_thread; ui_thread]
    (start fresh_state [position_1_2; position_3_4] 2) = true /\
  forallb (fun p => negb (half_written p)) [position_1_2; position_3_4] = true /\
  In (3%float, 4%float)
    (observed
       (interleave [worker_thread; worker_thread; ui_thread; ui_thread;
                    worker_thread; worker_thread; ui_thread; ui_thread]
          (start fresh_state [position_1_2; position_3_4] 2))) /\
  In (Some 3%float, Some 4%float)
    (position_of fresh_state :: written [position_1_2; position_3_4]).
Proof.
  assert (S : serial [worker_thread; worker_thread; ui_thread; ui_thread;
                      worker_thread; worker_thread; ui_thread; ui_thread]
                (start fresh_state [position_1_2; position_3_4] 2) = true)
    by reflexivity.
  assert (F : forallb (fun p => negb (half_written p))
                [position_1_2; position_3_4] = true)
    by reflexivity.
  split; [ exact S | split; [ exact F | ] ].
  assert (I : In (3%float, 4%float)
                (observed
                   (interleave [worker_thread; worker_thread; ui_thread; ui_thread;
                                worker_thread; worker_thread; ui_thread; ui_thread]
                      (start fresh_state [position_1_2; position_3_4] 2)))).
  { right. left. reflexivity. }
  split; [ exact I | ].
  exact (serial_snapshots_are_not_torn _ _ _ _ S F _ _ I).
Defined.

(** * The rest of the program *)

Section Methods.

Context {W : Type} {env : Env W} {builtins : Builtins}.

Implicit Types (s : St W) (e : exn) (position : pyval).

(** ** More on get_iss_position *)

Lemma get_iss_position_returns s s' :
  get_iss_position s = (Ok tt, s') ->
  exists response w lat lon,
    s' = {| self := with_longitude lon (with_latitude lat (self s));
            world := w;
            log := (log s ++ [ev_requests_get URL (Ok response)])%list |}.
Proof.
  rewrite get_iss_position_run.
  unfold fetch_position, bind, do_requests_get, lift.
  destruct (requests_get URL (world s)) as [[response | e] w]; [ | discriminate ].
  destruct (raise_for_status response) as [[] | e]; [ | discriminate ].
  destruct (json response) as [position | e]; [ | discriminate ].
  rewrite assign_latitude_run.
  destruct (py_get position "latitude") as [v1 | e]; [ | discriminate ].
  destruct (py_float v1) as [lat | e]; [ | discriminate ].
  rewrite assign_longitude_run.
  destruct (py_get position "longitude") as [v2 | e]; [ | discriminate ].
  destruct (py_float v2) as [lon | e]; [ | discriminate ].
  intros H. injection H as <-. exists response, w, lat, lon. reflexivity.
Qed.

Lemma initialize_marker_returns s s' :
  initialize_marker s = (Ok tt, s') ->
  exists mk, self s' = with_marker (Some mk) (self s).
Proof.
  unfold initialize_marker, try_except, bind, read, do_set_marker, assign, print,
    emit, put_self. cbn.
  run_calls; intros H; try discriminate H; injection H as <-; eexists; reflexivity.
Qed.

(** X1. [get_iss_position] returns exactly when the request returns a
    response whose status is no error, whose body is JSON and holds a latitude
    and a longitude that [float] converts; the tracker then holds that pair,
    and the log one more request. *)
Theorem fetch_returns_iff s s' :
  get_iss_position s = (Ok tt, s') <->
  exists response w position lat lon,
    requests_get URL (world s) = (Ok response, w) /\
    raise_for_status response = Ok tt /\
    body response = Some position /\
    coordinates position = Some (lat, lon) /\
    s' = {| self := with_longitude lon (with_latitude lat (self s));
            world := w;
            log := (log s ++ [ev_requests_get URL (Ok response)])%list |}.
Proof.
  rewrite get_iss_position_run.
  unfold fetch_position, bind, do_requests_get, lift, json.
  split.
  - destruct (requests_get URL (world s)) as [[response | e] w] eqn:Hg; [ | discriminate ].
    destruct (raise_for_status response) as [[] | e] eqn:Hr; [ | discriminate ].
    destruct (body response) as [position | ] eqn:Hb; [ | discriminate ].
    rewrite assign_latitude_run.
    destruct position; try discriminate. cbn [py_get].
    destruct (py_float (dict_get d "latitude")) as [lat | e] eqn:Hlat; [ | discriminate ].
    rewrite assign_longitude_run. cbn [py_get].
    destruct (py_float (dict_get d "longitude")) as [lon | e] eqn:Hlon; [ | discriminate ].
    intros H. injection H as <-.
    exists response, w, (PyDict d), lat, lon. rewrite coordinates_run, Hlat, Hlon.
    repeat split; assumption || reflexivity.
  - intros (response & w & position & lat & lon & -> & -> & Hb & Hc & ->).
    rewrite Hb. rewrite coordinates_run in Hc.
    destruct position; try discriminate Hc.
    rewrite assign_latitude_run. cbn [py_get].
    destruct (py_float (dict_get d "latitude")) as [lat' | e]; [ | discriminate Hc ].
    rewrite assign_longitude_run. cbn [py_get].
    destruct (py_float (dict_get d "longitude")) as [lon' | e]; [ | discriminate Hc ].
    assert (E : (lat', lon') = (lat, lon)).
    { exact (f_equal (fun o => match o with Some p => p | None => (lat', lon') end) Hc). }
    apply (f_equal fst) in E as E1. apply (f_equal snd) in E as E2.
    cbn in E1, E2. subst. reflexivity.
Qed.


Lemma dict_get_missing (d : list (string * pyval)) (key : string) :
  (forall v, ~ In (key, v) d) -> dict_get d key = PyNone.
Proof.
  induction d as [ | [k v] rest IH]; intros H; [ reflexivity | ].
  cbn [dict_get]. destruct (String.eqb k key) eqn:E.
  - apply String.eqb_eq in E. subst k. exfalso. apply (H v). left. reflexivity.
  - apply IH. intros v' Hin. apply (H v'). right. exact Hin.
Qed.

Lemma py_float_raises v e :
  py_float v = Raise e -> e = TypeError \/ e = ValueError \/ e = OverflowError.
Proof.
  destruct v as [ | b | z | f | str | l | d]; cbn; intros H;
    try discriminate H; try (injection H as <-; auto).
  - destruct (float_of_int z); [ discriminate H | injection H as <-; auto ].
  - destruct (float_of_str str); [ discriminate H | injection H as <-; auto ].
Qed.

(** X2. The exception of a failed [get_iss_position] is that of the first
    stage that fails: the request's own exception; HTTPError for a status from
    400 to 599; the decoder's exception for a body that does not decode;
    AttributeError for JSON that is no object; and for an object the TypeError,
    ValueError or OverflowError of [float] on its latitude or, when that
    converts, on its longitude. *)
Theorem fetch_error_tells_the_stage s s' e :
  get_iss_position s = (Raise e, s') ->
  match fst (requests_get URL (world s)) with
  | Raise e0 => e = e0
  | Ok response =>
      if (400 <=? status_code response) && (status_code response <? 600)
      then e = HTTPError
      else match body response with
           | None => e = decode_error response
           | Some (PyDict d) =>
               match py_float (dict_get d "latitude") with
               | Raise e1 => e = e1
               | Ok _ => py_float (dict_get d "longitude") = Raise e
               end /\
               (e = TypeError \/ e = ValueError \/ e = OverflowError)
           | Some _ => e = AttributeError
           end
  end.
Proof.
  rewrite get_iss_position_run.
  unfold fetch_position, bind, do_requests_get, lift, json, raise_for_status.
  destruct (requests_get URL (world s)) as [[response | e0] w]; cbn [fst];
    [ | intros H; injection H as <- _; reflexivity ].
  destruct ((400 <=? status_code response) && (status_code response <? 600));
    [ intros H; injection H as <- _; reflexivity | ].
  destruct (body response) as [position | ];
    [ | intros H; injection H as <- _; reflexivity ].
  rewrite assign_latitude_run.
  destruct position; cbn [py_get];
    try (intros H; injection H as <- _; reflexivity).
  destruct (py_float (dict_get d "latitude")) as [lat | e1] eqn:Hlat.
  - rewrite assign_longitude_run. cbn [py_get].
    destruct (py_float (dict_get d "longitude")) as [lon | e2] eqn:Hlon;
      [ discriminate | ].
    intros H. injection H as <- _.
    split; [ reflexivity | exact (py_float_raises _ _ Hlon) ].
  - intros H. injection H as <- _.
    split; [ reflexivity | exact (py_float_raises _ _ Hlat) ].
Qed.

(** X3. A response with a status from 400 to 599 raises HTTPError whatever
    its body holds, a good position included: the body is not read and the
    tracker is as it was. *)
Theorem http_error_status_wins s response w :
  requests_get URL (world s) = (Ok response, w) ->
  400 <= status_code response < 600 ->
  get_iss_position s =
    (Raise HTTPError,
     {| self := self s; world := w;
        log := (log s ++ [ev_requests_get URL (Ok response)])%list |}).
Proof.
  intros Hg [H1 H2]. rewrite get_iss_position_run.
  unfold fetch_position, bind, do_requests_get, lift, raise_for_status.
  rewrite Hg.
  apply Z.leb_le in H1. apply Z.ltb_lt in H2. rewrite H1, H2. reflexivity.
Qed.

(** X4. A JSON object without a [latitude] key makes [get_iss_position]
    raise TypeError ([float(None)]) and leaves the tracker as it was. *)
Theorem missing_latitude_is_a_TypeError s response w d :
  requests_get URL (world s) = (Ok response, w) ->
  raise_for_status response = Ok tt ->
  body response = Some (PyDict d) ->
  (forall v, ~ In ("latitude", v) d) ->
  get_iss_position s =
    (Raise TypeError,
     {| self := self s; world := w;
        log := (log s ++ [ev_requests_get URL (Ok response)])%list |}).
Proof.
  intros Hg Hr Hb Hd. rewrite get_iss_position_run.
  unfold fetch_position, bind, do_requests_get, lift, json.
  rewrite Hg, Hr, Hb, assign_latitude_run. cbn [py_get].
  rewrite (dict_get_missing _ _ Hd). reflexivity.
Qed.


(** ** update_marker_position *)

(** X5. With a marker in place [update_marker_position] changes no attribute
    and makes no marker; when it returns it has moved the marker to the stored
    position and then centred the map on the same pair. *)
Theorem update_marker_position_moves_the_marker s mk lat lon :
  marker (self s) = Some mk ->
  latitude (self s) = Some lat ->
  longitude (self s) = Some lon ->
  self (snd (update_marker_position s)) = self s /\
  filter is_set_marker (log (snd (update_marker_position s))) =
    filter is_set_marker (log s) /\
  (fst (update_marker_position s) = Ok tt ->
   log (snd (update_marker_position s)) =
     (log s ++
      [ev_toolkit (MarkerSetPosition mk (PyFloat lat) (PyFloat lon)) (Ok tt);
       ev_toolkit (MapSetPosition (PyFloat lat) (PyFloat lon)) (Ok tt)])%list).
Proof.
  intros Hm Hlat Hlon.
  unfold update_marker_position, bind, attr, read, gui. cbn.
  rewrite Hm, Hlat. cbn. rewrite Hlon. cbn.
  destruct (toolkit (MarkerSetPosition mk (PyFloat lat) (PyFloat lon)) (world s))
    as [[[] | e1] w1]; cbn.
  - rewrite Hlat. cbn. rewrite Hlon. cbn.
    destruct (toolkit (MapSetPosition (PyFloat lat) (PyFloat lon)) w1)
      as [[[] | e2] w2]; cbn;
      rewrite !filter_app; cbn; rewrite !app_nil_r, <- ?app_assoc;
      repeat split; try reflexivity; intros H; discriminate H.
  - rewrite !filter_app; cbn; rewrite !app_nil_r.
    repeat split; try reflexivity; intros H; discriminate H.
Qed.

(** X6. With no marker [update_marker_position] makes one call of
    [map.set_marker], at the stored position and red inside and out; the marker
    is kept when the call returns, the exception is passed on when it raises,
    and the map is not centred. *)
Theorem update_marker_position_makes_the_marker s lat lon :
  marker (self s) = None ->
  latitude (self s) = Some lat ->
  longitude (self s) = Some lon ->
  update_marker_position s =
    (match fst (map_set_marker (marker_args_at (PyFloat lat) (PyFloat lon) "red")
                  (world s)) with
     | Ok _ => Ok tt
     | Raise e => Raise e
     end,
     {| self :=
          match fst (map_set_marker (marker_args_at (PyFloat lat) (PyFloat lon) "red")
                       (world s)) with
          | Ok mk => with_marker (Some mk) (self s)
          | Raise _ => self s
          end;
        world := snd (map_set_marker (marker_args_at (PyFloat lat) (PyFloat lon) "red")
                        (world s));
        log := (log s ++
                [ev_set_marker (marker_args_at (PyFloat lat) (PyFloat lon) "red")
                   (fst (map_set_marker
                           (marker_args_at (PyFloat lat) (PyFloat lon) "red")
                           (world s)))])%list |}).
Proof.
  intros Hm Hlat Hlon.
  unfold update_marker_position, bind, attr, read, do_set_marker, assign, put_self,
    marker_args_at. cbn.
  rewrite Hm, Hlat. cbn. rewrite Hlon. cbn.
  destruct (map_set_marker _ (world s)) as [[mk | e] w1]; reflexivity.
Qed.

(** ** initialize_marker *)

(** X7. When [initialize_marker] returns, the tracker has a marker and is
    otherwise as it was. *)
Theorem initialize_marker_sets_the_marker s s' :
  initialize_marker s = (Ok tt, s') ->
  exists mk,
    self s' = with_marker (Some mk) (self s) /\
    marker (self s') = Some mk.
Proof.
  intros H. destruct (initialize_marker_returns s s' H) as (mk & E).
  exists mk. split; [ exact E | rewrite E; reflexivity ].
Qed.

(** X8. When the first [map.set_marker] of [initialize_marker] raises, the
    error is printed and, once the print has returned, a second marker is asked
    for at (0, 0); the outcome of [initialize_marker] is the outcome of that
    second call. When the print raises, its exception leaves the method and no
    second marker is asked for. *)
Theorem initialize_marker_falls_back s lat lon e w1 :
  latitude (self s) = Some lat ->
  longitude (self s) = Some lon ->
  map_set_marker (marker_args_at (PyFloat lat) (PyFloat lon) "darkblue") (world s) =
    (Raise e, w1) ->
  initialize_marker s =
    match print_line "Error initializing marker: " e w1 with
    | (Ok _, w2) =>
        (match fst (map_set_marker (marker_args_at (PyInt 0) (PyInt 0) "darkblue") w2)
         with
         | Ok _ => Ok tt
         | Raise e2 => Raise e2
         end,
         {| self :=
              match fst (map_set_marker (marker_args_at (PyInt 0) (PyInt 0) "darkblue")
                           w2)
              with
              | Ok mk => with_marker (Some mk) (self s)
              | Raise _ => self s
              end;
            world :=
              snd (map_set_marker (marker_args_at (PyInt 0) (PyInt 0) "darkblue") w2);
            log := (log s ++
                    [ev_set_marker
                       (marker_args_at (PyFloat lat) (PyFloat lon) "darkblue")
                       (Raise e);
                     ev_print "Error initializing marker: " e;
                     ev_set_marker (marker_args_at (PyInt 0) (PyInt 0) "darkblue")
                       (fst (map_set_marker
                               (marker_args_at (PyInt 0) (PyInt 0) "darkblue")
                               w2))])%list
         |})
    | (Raise e1, w2) =>
        (Raise e1,
         {| self := self s;
            world := w2;
            log := (log s ++
                    [ev_set_marker
                       (marker_args_at (PyFloat lat) (PyFloat lon) "darkblue")
                       (Raise e);
                     ev_print "Error initializing marker: " e])%list
         |})
    end.
Proof.
  intros Hlat Hlon H1.
  unfold initialize_marker, try_except, bind, read, do_set_marker, assign, print,
    put_self, marker_args_at in *. cbn.
  rewrite Hlat. cbn. rewrite Hlon. cbn. rewrite H1. cbn.
  destruct (print_line "Error initializing marker: " e w1) as [[[] | e1] w2]; cbn.
  - destruct (map_set_marker _ w2) as [[mk | e2] w3]; cbn;
      rewrite <- !app_assoc; reflexivity.
  - rewrite <- !app_assoc. reflexivity.
Qed.

(** ** change_map *)

(** X10. [change_map] does nothing at all for a value that is not one of its
    three names: no call, no change, no error. *)
Theorem change_map_ignores_unknown_names new_map s :
  known_map new_map = false -> change_map new_map s = (Ok tt, s).
Proof.
  unfold known_map, change_map. destruct new_map; try reflexivity.
  intros H. apply orb_false_elim in H. destruct H as [H H3].
  apply orb_false_elim in H. destruct H as [H1 H2].
  rewrite H1, H2, H3. reflexivity.
Qed.

(** X11. For each of its three names [change_map] makes exactly one call,
    [map.set_tile_server], and returns or raises as it does; no attribute
    changes. The zoom is left unbounded for OpenStreetMap only. *)
Theorem change_map_sets_one_tile_server new_map s :
  known_map new_map = true ->
  exists url max_zoom,
    change_map new_map s =
      (fst (toolkit (MapSetTileServer url max_zoom) (world s)),
       {| self := self s;
          world := snd (toolkit (MapSetTileServer url max_zoom) (world s));
          log := (log s ++
                  [ev_toolkit (MapSetTileServer url max_zoom)
                     (fst (toolkit (MapSetTileServer url max_zoom) (world s)))])%list
       |}) /\
    (max_zoom = None <-> new_map = PyStr "OpenStreetMap").
Proof.
  unfold known_map, change_map, gui. destruct new_map; try discriminate.
  intros H.
  destruct (String.eqb s0 "OpenStreetMap") eqn:E1.
  { apply String.eqb_eq in E1. subst s0.
    exists "https://a.tile.openstreetmap.org/{z}/{x}/{y}.png", None.
    split; [ destruct (toolkit _ (world s)); reflexivity | tauto ]. }
  assert (N : PyStr s0 <> PyStr "OpenStreetMap").
  { intros E. injection E as ->. discriminate E1. }
  destruct (String.eqb s0 "Google normal") eqn:E2.
  { exists "https://mt0.google.com/vt/lyrs=m&hl=en&x={x}&y={y}&z={z}&s=Ga", (Some 22).
    split; [ destruct (toolkit _ (world s)); reflexivity | ].
    split; [ discriminate | intros E; destruct (N E) ]. }
  destruct (String.eqb s0 "Google satellite") eqn:E3; [ | discriminate H ].
  exists "https://mt0.google.com/vt/lyrs=s&hl=en&x={x}&y={y}&z={z}&s=Ga", (Some 22).
  split; [ destruct (toolkit _ (world s)); reflexivity | ].
  split; [ discriminate | intros E; destruct (N E) ].
Qed.


(** ** create_widgets *)

(** X12. [create_widgets] returns only on a tracker that has a position.
    Then the position, the count, the flag, the marker and the interval are as
    they were (the method assigns widget attributes only), the map was made in
    the size of the window and centred on the position, the labels show it
    with a count of zero, and Escape is bound to [quit]. *)
Theorem create_widgets_needs_a_position s s' :
  create_widgets s = (Ok tt, s') ->
  exists lat lon,
    latitude (self s) = Some lat /\
    longitude (self s) = Some lon /\
    latitude (self s') = Some lat /\
    longitude (self s') = Some lon /\
    count (self s') = count (self s) /\
    running (self s') = running (self s) /\
    marker (self s') = marker (self s) /\
    update_interval (self s') = update_interval (self s) /\
    In (ev_toolkit (MapNew (width (self s)) (height (self s))) (Ok tt)) (log s') /\
    In (ev_toolkit (MapSetPosition (PyFloat lat) (PyFloat lon)) (Ok tt)) (log s') /\
    In (ev_toolkit (LabelNew lbl_lat (FStr "Latitude: " (PyFloat lat) ".4f" ""))
          (Ok tt)) (log s') /\
    In (ev_toolkit (LabelNew lbl_lon (FStr "Longitude: " (PyFloat lon) ".4f" ""))
          (Ok tt)) (log s') /\
    In (ev_toolkit (LabelNew lbl_count (Str "Count: 0")) (Ok tt)) (log s') /\
    In (ev_toolkit (RootBind "<Escape>" m_quit) (Ok tt)) (log s').
Proof.
  destruct (latitude (self s)) as [lat | ] eqn:Hlat;
    destruct (longitude (self s)) as [lon | ] eqn:Hlon;
    unfold create_widgets, bind, gui, attr, read; cbn;
    repeat match goal with
      | |- context [toolkit ?c ?w] =>
          destruct (toolkit c w) as [[[] | ?] ?]; cbn;
          repeat (first [ rewrite Hlat | rewrite Hlon ]; cbn)
      end;
    intros H; try discriminate H.
  injection H as <-. cbn.
  exists lat, lon.
  repeat (split; [ first [ reflexivity | assumption ] | ]).
  rewrite <- !app_assoc. cbn.
  repeat split; apply in_or_app; right;
    repeat (first [ left; reflexivity | right ]).
Qed.

(** ** run and main *)









(** ** The tracker the constructor returns *)

(** X15. A tracker that the constructor returns has the sizes and the
    interval it was given, the flag down, no thread, a count of zero, and a
    position and a marker in place. *)
Theorem constructor_returns_a_ready_tracker ww hh i (w0 : W) t s :
  ISSTracker ww hh i w0 = (Ok t, s) ->
  self s = t /\
  exists lat lon mk,
    t = {| width := ww; height := hh; update_interval := i; running := false;
           update_thread := false; count := 0; marker := Some mk;
           latitude := Some lat; longitude := Some lon |}.
Proof.
  unfold ISSTracker, __init__. rewrite bind_run.
  destruct (init_attributes ww hh i _) as [[[] | e] s1] eqn:H1; [ | discriminate ].
  destruct (init_attributes_run _ _ _ _ _ H1) as (Hself & _).
  rewrite bind_run.
  destruct (get_iss_position s1) as [[[] | e] s2] eqn:H2; [ | discriminate ].
  destruct (get_iss_position_returns _ _ H2) as (response & w & lat & lon & ->).
  rewrite bind_run.
  pose proof (create_widgets_self
                {| self := with_longitude lon (with_latitude lat (self s1));
                   world := w;
                   log := (log s1 ++ [ev_requests_get URL (Ok response)])%list |}) as C2.
  destruct (create_widgets _) as [[[] | e] s3]; [ | discriminate ].
  destruct (initialize_marker s3) as [[[] | e] s4] eqn:H4; [ | discriminate ].
  destruct (initialize_marker_returns _ _ H4) as (mk & H5).
  intros H. injection H as <- <-. split; [ reflexivity | ].
  exists lat, lon, mk. rewrite H5. cbn [snd] in C2. rewrite C2. cbn [self].
  rewrite Hself. reflexivity.
Qed.

End Methods.

Section Schedules.

Context {W : Type} {env : Env W} {builtins : Builtins}.

Implicit Types (s : St W) (e : exn) (position : pyval).

(** ** What the callbacks leave alone *)

Lemma change_map_self new_map s : self (snd (change_map new_map s)) = self s.
Proof.
  unfold change_map, gui, ret. destruct new_map; try reflexivity.
  run_calls; reflexivity.
Qed.

Lemma update_marker_position_self s :
  marker (self s) <> None ->
  self (snd (update_marker_position s)) = self s.
Proof.
  intros Hm. unfold update_marker_position, bind, attr, read, gui. cbn.
  destruct (marker (self s)) as [mk | ]; [ | destruct (Hm eq_refl) ].
  cbn. run_calls; reflexivity.
Qed.

Lemma update_marker_position_position s :
  latitude (self (snd (update_marker_position s))) = latitude (self s) /\
  longitude (self (snd (update_marker_position s))) = longitude (self s) /\
  count (self (snd (update_marker_position s))) = count (self s) /\
  update_interval (self (snd (update_marker_position s))) = update_interval (self s).
Proof.
  unfold update_marker_position, bind, attr, read, gui, do_set_marker, assign,
    put_self. cbn.
  destruct (marker (self s)) as [mk | ]; cbn;
    destruct (latitude (self s)) as [lat | ] eqn:Hlat; cbn; auto;
    destruct (longitude (self s)) as [lon | ] eqn:Hlon; cbn; auto;
    repeat match goal with
      | |- context [toolkit ?c ?w] =>
          destruct (toolkit c w) as [[[] | ?] ?]; cbn;
          repeat (first [ rewrite Hlat | rewrite Hlon ]; cbn)
      | |- context [map_set_marker ?a ?w] =>
          destruct (map_set_marker a w) as [[? | ?] ?]; cbn
      end; auto.
Qed.

Lemma call_method_position m args s :
  latitude (self (snd (call_method m args s))) = latitude (self s) /\
  longitude (self (snd (call_method m args s))) = longitude (self s) /\
  count (self (snd (call_method m args s))) = count (self s) /\
  update_interval (self (snd (call_method m args s))) = update_interval (self s).
Proof.
  destruct m; unfold call_method.
  - rewrite quit_run. cbn. auto.
  - destruct args; [ apply update_marker_position_position | cbn; auto ].
  - destruct args as [ | v [ | ] ]; cbn [raise snd]; auto.
    rewrite change_map_self. auto.
Qed.

Lemma call_method_marker m args s mk :
  marker (self s) = Some mk ->
  marker (self (snd (call_method m args s))) = Some mk /\
  filter is_set_marker (log (snd (call_method m args s))) =
    filter is_set_marker (log s).
Proof.
  intros Hm. destruct m; unfold call_method.
  - split; [ rewrite quit_run; exact Hm | apply quit_filter; reflexivity ].
  - destruct args; [ | split; [ exact Hm | reflexivity ] ].
    split.
    + rewrite update_marker_position_self; [ exact Hm | congruence ].
    + unfold update_marker_position, bind, attr. cbn. rewrite Hm.
      revert s Hm. intros s _.
      change (filter is_set_marker
                (log (snd ((bind (read latitude) (fun lat =>
                            bind (read longitude) (fun lon =>
                            bind (gui (MarkerSetPosition mk (PyFloat lat) (PyFloat lon)))
                              (fun _ =>
                            bind (read latitude) (fun lat0 =>
                            bind (read longitude) (fun lon0 =>
                            gui (MapSetPosition (PyFloat lat0) (PyFloat lon0)))))))) s)))
              = filter is_set_marker (log s)).
      revert s.
      repeat first
        [ apply bind_filter; [ | intros ? ]
        | apply gui_filter; intros ?; reflexivity
        | intros ?; apply read_filter ].
  - destruct args as [ | v [ | ] ]; try (split; [ exact Hm | reflexivity ]).
    split; [ rewrite change_map_self; exact Hm | ].
    apply change_map_filter. reflexivity.
Qed.

(** X16. No callback of the UI thread, with whatever arguments, writes the
    position, the count or the interval, and none makes a request. *)
Theorem callbacks_never_write_the_position m args s :
  latitude (self (snd (call_method m args s))) = latitude (self s) /\
  longitude (self (snd (call_method m args s))) = longitude (self s) /\
  count (self (snd (call_method m args s))) = count (self s) /\
  update_interval (self (snd (call_method m args s))) = update_interval (self s) /\
  filter is_request (log (snd (call_method m args s))) = filter is_request (log s).
Proof.
  destruct (call_method_position m args s) as (H1 & H2 & H3 & H4).
  repeat split; try assumption. apply call_method_filter; reflexivity.
Qed.


(** ** What a pass leaves alone *)

Lemma loop_body_self s :
  self (snd (loop_body s)) =
  if fetch_ok s
  then with_count (count (self (snd (get_iss_position s))) + 1)
         (self (snd (get_iss_position s)))
  else self (snd (get_iss_position s)).
Proof.
  unfold fetch_ok.
  destruct (get_iss_position s) as [[[] | e] s1] eqn:G; cbn [fst snd].
  - destruct (loop_body_fetched s s1 G) as (r & w' & rest & ->). reflexivity.
  - rewrite (loop_body_failed s s1 e G), print_run. reflexivity.
Qed.

Lemma loop_body_marker s : marker (self (snd (loop_body s))) = marker (self s).
Proof.
  rewrite loop_body_self.
  destruct (get_iss_position_effect s) as (r & w & lat & lon & _ & ->).
  destruct (fetch_ok s); reflexivity.
Qed.

Lemma get_iss_position_keeps_position_set s :
  (latitude (self s) <> None ->
   latitude (self (snd (get_iss_position s))) <> None) /\
  (longitude (self s) <> None ->
   longitude (self (snd (get_iss_position s))) <> None).
Proof.
  rewrite get_iss_position_run.
  destruct (fetch_position_run s) as (r & w & _ & Hs1 & _).
  destruct (fetch_position s) as [[position | e] s1]; cbn [snd] in Hs1; subst s1;
    [ | cbn; auto ].
  rewrite assign_latitude_run.
  destruct (py_get position "latitude") as [v1 | e]; [ | cbn; auto ].
  destruct (py_float v1) as [lat | e]; [ | cbn; auto ].
  rewrite assign_longitude_run.
  destruct (py_get position "longitude") as [v2 | e];
    [ destruct (py_float v2) as [lon | e] | ];
    cbn; split; intros H; try exact H; discriminate.
Qed.

Lemma loop_body_keeps_position_set s :
  (latitude (self s) <> None -> latitude (self (snd (loop_body s))) <> None) /\
  (longitude (self s) <> None -> longitude (self (snd (loop_body s))) <> None).
Proof.
  rewrite loop_body_self.
  destruct (get_iss_position_keeps_position_set s) as [H1 H2].
  destruct (fetch_ok s); split; assumption.
Qed.

(** ** Under every schedule *)

Lemma step_flag_down (t : thread_state) s :
  running (self s) = false ->
  t <> InBody ->
  step Worker (t, s) = (match t with Looping => Exited | _ => t end, s).
Proof.
  intros R N. destruct t; cbn [step worker_step]; try reflexivity.
  - rewrite R. reflexivity.
  - destruct (N eq_refl).
Qed.

(** With the flag down and no pass in flight, nothing is fetched any
    more. *)
Lemma exec_flag_down sched t s :
  running (self s) = false ->
  t <> InBody ->
  fetch_outcomes sched (t, s) = [] /\
  filter is_request (log (snd (exec sched (t, s)))) = filter is_request (log s) /\
  position_of (snd (exec sched (t, s))) = position_of s /\
  count (self (snd (exec sched (t, s)))) = count (self s).
Proof.
  revert t s. induction sched as [ | a rest IH]; intros t s R N.
  - cbn. auto.
  - destruct a as [ | m args].
    + pose proof (step_flag_down t s R N) as E.
      assert (N' : match t with Looping => Exited | _ => t end <> InBody)
        by (destruct t; congruence).
      cbn [exec fetch_outcomes]. rewrite E.
      destruct (IH _ s R N') as (I1 & I2 & I3 & I4).
      destruct t; try (destruct (N eq_refl)); auto.
    + cbn [exec fetch_outcomes step].
      assert (R' : running (self (snd (call_method m args s))) = false).
      { rewrite call_method_running, R. destruct (is_quit (Ui m args)); reflexivity. }
      destruct (IH t _ R' N) as (I1 & I2 & I3 & I4).
      destruct (call_method_position m args s) as (P1 & P2 & P3 & _).
      rewrite I2, I3, I4, call_method_filter, P3 by reflexivity. unfold position_of.
      rewrite P1, P2. destruct t; auto.
Qed.

(** With the flag down at most the pass in flight goes on. *)
Lemma exec_flag_down_outcomes sched t s :
  running (self s) = false ->
  (List.length (fetch_outcomes sched (t, s)) <= 1)%nat.
Proof.
  revert t s. induction sched as [ | a rest IH]; intros t s R.
  - cbn. lia.
  - destruct a as [ | m args].
    + destruct t.
      * cbn [fetch_outcomes step worker_step]. rewrite R. apply IH, R.
      * cbn [fetch_outcomes step worker_step].
        pose proof (loop_body_running s) as R'. rewrite R in R'.
        destruct (loop_body s) as [[[] | e] s']; cbn [snd] in R'.
        -- assert (N : Looping <> InBody) by discriminate.
           rewrite (proj1 (exec_flag_down rest _ s' R' N)). cbn. lia.
        -- assert (N : Died e <> InBody) by discriminate.
           rewrite (proj1 (exec_flag_down rest _ s' R' N)). cbn. lia.
      * cbn [fetch_outcomes step worker_step]. apply IH, R.
      * cbn [fetch_outcomes step worker_step]. apply IH, R.
    + assert (R' : running (self (snd (call_method m args s))) = false).
      { rewrite call_method_running, R. destruct (is_quit (Ui m args)); reflexivity. }
      pose proof (IH t _ R') as L.
      destruct t; cbn [fetch_outcomes step]; exact L.
Qed.

(** With the flag down a worker at the head of its loop leaves at its next
    step. *)
Lemma exec_flag_down_exits sched s :
  running (self s) = false ->
  existsb is_worker sched = true ->
  fst (exec sched (Looping, s)) = Exited.
Proof.
  revert s. induction sched as [ | a rest IH]; intros s R X; [ discriminate X | ].
  destruct a as [ | m args].
  - cbn [exec step worker_step]. rewrite R. apply exec_done. exact I.
  - cbn [exec step]. apply IH; [ | exact X ].
    rewrite call_method_running, R. destruct (is_quit (Ui m args)); reflexivity.
Qed.

(** X17. After [quit] the flag stays down under every schedule, and the
    worker finishes at most the pass it is in: at most one more fetch is made,
    and it is counted when it returns. When no pass was in flight as [quit]
    ran, nothing is fetched any more: the log gains no request and the position
    and the count stay; a worker at the head of its loop leaves it at its next
    step. *)
Theorem no_fetch_after_quit (arts : list pyval) sched t s :
  running (self (snd (exec sched (t, snd (quit arts s))))) = false /\
  (List.length (fetch_outcomes sched (t, snd (quit arts s))) <= 1)%nat /\
  count (self (snd (exec sched (t, snd (quit arts s))))) =
    count (self s) + successes (fetch_outcomes sched (t, snd (quit arts s))) /\
  (t <> InBody ->
   fetch_outcomes sched (t, snd (quit arts s)) = [] /\
   filter is_request (log (snd (exec sched (t, snd (quit arts s))))) =
     filter is_request (log s) /\
   position_of (snd (exec sched (t, snd (quit arts s)))) = position_of s /\
   count (self (snd (exec sched (t, snd (quit arts s))))) = count (self s)) /\
  (t = Looping ->
   existsb is_worker sched = true ->
   fst (exec sched (t, snd (quit arts s))) = Exited).
Proof.
  assert (R : running (self (snd (quit arts s))) = false)
    by (rewrite quit_run; reflexivity).
  split; [ apply exec_running_down; exact R | ].
  split; [ apply exec_flag_down_outcomes; exact R | ].
  split.
  { rewrite (proj1 (exec_counts sched (t, snd (quit arts s)))).
    rewrite quit_run. reflexivity. }
  split.
  - intros N. destruct (exec_flag_down sched t _ R N) as (I1 & I2 & I3 & I4).
    rewrite I1, I2, I3, I4, quit_run. cbn.
    rewrite filter_app. cbn. rewrite app_nil_r. auto.
  - intros -> X. apply exec_flag_down_exits; assumption.
Qed.

(** X18. A tracker that has its marker keeps it under every schedule, and no
    further marker is asked for: the branch of [update_marker_position] that
    makes one is not taken again. *)
Theorem marker_is_made_once sched t s mk :
  marker (self s) = Some mk ->
  marker (self (snd (exec sched (t, s)))) = Some mk /\
  filter is_set_marker (log (snd (exec sched (t, s)))) =
    filter is_set_marker (log s).
Proof.
  revert t s. induction sched as [ | a rest IH]; intros t s Hm.
  - cbn. auto.
  - cbn [exec]. destruct a as [ | m args].
    + assert (E : marker (self (snd (step Worker (t, s)))) = Some mk /\
                  filter is_set_marker (log (snd (step Worker (t, s)))) =
                    filter is_set_marker (log s)).
      { cbn [step]. rewrite worker_step_next. cbn [fst snd].
        destruct t; auto.
        rewrite loop_body_marker. split; [ exact Hm | ].
        apply loop_body_filter; reflexivity. }
      destruct E as [E1 E2].
      destruct (step Worker (t, s)) as [t' s']. cbn [snd] in E1, E2.
      destruct (IH t' s' E1) as [I1 I2]. rewrite I1, I2, E2. auto.
    + cbn [step].
      destruct (call_method_marker m args s mk Hm) as [E1 E2].
      destruct (IH t _ E1) as [I1 I2]. rewrite I1, I2, E2. auto.
Qed.

(** X19. A position that is set stays set under every schedule: a fetch
    assigns floats or nothing, and nothing deletes the attributes. *)
Theorem position_stays_set sched t s :
  latitude (self s) <> None ->
  longitude (self s) <> None ->
  latitude (self (snd (exec sched (t, s)))) <> None /\
  longitude (self (snd (exec sched (t, s)))) <> None.
Proof.
  revert t s. induction sched as [ | a rest IH]; intros t s Hlat Hlon.
  - cbn. auto.
  - cbn [exec]. destruct a as [ | m args].
    + assert (E : latitude (self (snd (step Worker (t, s)))) <> None /\
                  longitude (self (snd (step Worker (t, s)))) <> None).
      { cbn [step]. rewrite worker_step_next. cbn [fst snd].
        destruct t; auto.
        destruct (loop_body_keeps_position_set s) as [H1 H2]. auto. }
      destruct E as [E1 E2].
      destruct (step Worker (t, s)) as [t' s']. cbn [snd] in E1, E2.
      apply IH; assumption.
    + cbn [step].
      destruct (call_method_position m args s) as (P1 & P2 & _).
      apply IH; [ rewrite P1 | rewrite P2 ]; assumption.
Qed.


(** ** A pass, by what it prints *)

Lemma app_one_not_self {A} (l : list A) (x : A) : (l ++ [x])%list <> l.
Proof.
  intros H. apply (f_equal (@List.length A)) in H.
  rewrite length_app in H. cbn in H. lia.
Qed.

Ltac printed_something H :=
  exfalso; cbn in H; rewrite ?filter_app in H; cbn in H;
  rewrite ?app_nil_r in H; exact (app_one_not_self _ _ H).

(** X20. A pass that prints no error has made one request that returned,
    stored its position, counted it, configured the three labels with the new
    count and the new position, queued one marker update and slept for the
    interval, which is not negative and fits the clock. *)
Theorem pass_without_error s :
  filter is_print (log (snd (loop_body s))) = filter is_print (log s) ->
  exists response lat lon,
    0 <= update_interval (self s) <= 9223372036 /\
    self (snd (loop_body s)) =
      with_count (count (self s) + 1)
        (with_longitude lon (with_latitude lat (self s))) /\
    log (snd (loop_body s)) =
      (log s ++
       [ev_requests_get URL (Ok response);
        ev_toolkit
          (LblConfigure lbl_count (FStr " Count: " (PyInt (count (self s) + 1)) "" " "))
          (Ok tt);
        ev_toolkit
          (LblConfigure lbl_lat (FStr " Latitude: " (PyFloat lat) ".4f" " ")) (Ok tt);
        ev_toolkit
          (LblConfigure lbl_lon (FStr " Longitude: " (PyFloat lon) ".4f" " ")) (Ok tt);
        ev_toolkit (RootAfter 0 m_update_marker_position) (Ok tt);
        ev_sleep (update_interval (self s))])%list.
Proof.
  destruct (get_iss_position s) as [[[] | e] s1] eqn:G.
  - destruct (get_iss_position_returns _ _ G) as (response & w & lat & lon & ->).
    unfold loop_body. rewrite try_bind, G.
    unfold try_except, bind, attr, assign, gui, read, sleep, print, emit, raise,
      put_self, ret.
    cbn.
    destruct ((update_interval (self s) <? -9223372036)
              || (9223372036 <? update_interval (self s))) eqn:Ho;
      destruct (update_interval (self s) <? 0) eqn:Hi;
      repeat match goal with
        | |- context [toolkit ?c ?w] =>
            destruct (toolkit c w) as [[[] | ?] ?]; cbn; rewrite ?Ho, ?Hi; cbn
        | |- context [print_line ?m ?e ?w] =>
            destruct (print_line m e w) as [[[] | ?] ?]; cbn
        end;
      intros H; try (printed_something H).
    exists response, lat, lon.
    apply orb_false_elim in Ho. destruct Ho as [_ Ho].
    apply Z.ltb_ge in Hi. apply Z.ltb_ge in Ho.
    rewrite <- !app_assoc. cbn. auto.
  - rewrite (loop_body_failed s s1 e G), print_run.
    destruct (get_iss_position_effect s) as (r & w & lat & lon & _ & Hs1).
    rewrite G in Hs1. cbn [snd] in Hs1. subst s1.
    intros H. printed_something H.
Qed.

(** X21. With a negative update interval no pass sleeps and every pass ends
    by printing an error: [sleep] raises inside the [try]. *)
Theorem negative_interval_never_sleeps s :
  update_interval (self s) < 0 ->
  filter is_sleep (log (snd (loop_body s))) = filter is_sleep (log s) /\
  exists events e,
    log (snd (loop_body s)) =
      (log s ++ events ++ [ev_print "Error updating ISS position: " e])%list.
Proof.
  intros Hi. apply Z.ltb_lt in Hi. split.
  - destruct (get_iss_position s) as [[[] | e] s1] eqn:G.
    + destruct (get_iss_position_returns _ _ G) as (response & w & lat & lon & ->).
      unfold loop_body. rewrite try_bind, G.
      unfold try_except, bind, attr, assign, gui, read, sleep, print, emit, raise,
        put_self, ret.
      cbn.
      destruct ((update_interval (self s) <? -9223372036)
                || (9223372036 <? update_interval (self s))) eqn:Ho;
        repeat match goal with
          | |- context [toolkit ?c ?w] =>
              destruct (toolkit c w) as [[[] | ?] ?]; cbn; rewrite ?Ho, ?Hi; cbn
          | |- context [print_line ?m ?e ?w] =>
              destruct (print_line m e w) as [[[] | ?] ?]; cbn
          end;
        rewrite !filter_app; cbn; rewrite !app_nil_r; reflexivity.
    + rewrite (loop_body_failed s s1 e G), print_run. cbn.
      destruct (get_iss_position_effect s) as (r & w & lat & lon & _ & Hs1).
      rewrite G in Hs1. cbn [snd] in Hs1. subst s1. cbn.
      rewrite !filter_app. cbn. rewrite !app_nil_r. reflexivity.
  - destruct (get_iss_position s) as [[[] | e] s1] eqn:G.
    + destruct (get_iss_position_returns _ _ G) as (response & w & lat & lon & ->).
      unfold loop_body. rewrite try_bind, G.
      unfold try_except, bind, attr, assign, gui, read, sleep, print, emit, raise,
        put_self, ret.
      cbn.
      destruct ((update_interval (self s) <? -9223372036)
                || (9223372036 <? update_interval (self s))) eqn:Ho;
        repeat match goal with
          | |- context [toolkit ?c ?w] =>
              destruct (toolkit c w) as [[[] | ?] ?]; cbn; rewrite ?Ho, ?Hi; cbn
          | |- context [print_line ?m ?e ?w] =>
              destruct (print_line m e w) as [[[] | ?] ?]; cbn
          end;
        rewrite <- !app_assoc; cbn;
        match goal with
        | |- exists events e', (log s ++ ?l)%list = _ =>
            exists (removelast l);
            match eval cbv in (last l ev_thread_start) with
            | ev_print _ ?e0 => exists e0
            end
        end; reflexivity.
    + rewrite (loop_body_failed s s1 e G), print_run.
      destruct (get_iss_position_effect s) as (r & w & lat & lon & _ & Hs1).
      rewrite G in Hs1. cbn [snd] in Hs1. subst s1. cbn.
      exists [ev_requests_get URL r], e. rewrite <- app_assoc. reflexivity.
Qed.

End Schedules.

(** * More concrete runs *)

Lemma fetch_returns_iff_witness :
  get_iss_position (state_at 1 2 [reply_3_4]) =
    (Ok tt,
     {| self := with_longitude 4 (with_latitude 3 (tracker_at 1 2));
        world := running_world [];
        log := [ev_requests_get URL reply_3_4] |}).
Proof.
  apply (proj2 (fetch_returns_iff (state_at 1 2 [reply_3_4]) _)).
  exists {| status_code := 200; body := Some position_3_4;
            decode_error := JSONDecodeError |}, (running_world []),
    position_3_4, 3%float, 4%float.
  repeat split.
Defined.

(** A body that the decoder refuses with a plain ValueError. *)
Lemma fetch_error_tells_the_stage_witness :
  get_iss_position (state_at 1 2 [Ok reply_with_huge_integer]) =
    (Raise ValueError,
     snd (get_iss_position (state_at 1 2 [Ok reply_with_huge_integer]))) /\
  ValueError = decode_error reply_with_huge_integer.
Proof.
  assert (H : get_iss_position (state_at 1 2 [Ok reply_with_huge_integer]) =
              (Raise ValueError,
               snd (get_iss_position (state_at 1 2 [Ok reply_with_huge_integer]))))
    by reflexivity.
  split; [ exact H | ].
  exact (fetch_error_tells_the_stage _ _ _ H).
Defined.

(** A latitude that is no number: the ValueError of [float]. *)
Example latitude_north :
  fst (get_iss_position (state_at 1 2 [reply_north])) = Raise ValueError.
Proof. reflexivity. Qed.

Lemma http_error_status_wins_witness :
  requests_get URL (world (state_at 1 2 [Ok reply_404])) =
    (Ok reply_404, running_world []) /\
  400 <= status_code reply_404 < 600 /\
  get_iss_position (state_at 1 2 [Ok reply_404]) =
    (Raise HTTPError,
     {| self := tracker_at 1 2; world := running_world [];
        log := [ev_requests_get URL (Ok reply_404)] |}).
Proof.
  assert (G : requests_get URL (world (state_at 1 2 [Ok reply_404])) =
              (Ok reply_404, running_world [])) by reflexivity.
  assert (S : 400 <= status_code reply_404 < 600) by (cbn; lia).
  split; [ exact G | split; [ exact S | ] ].
  exact (http_error_status_wins _ _ _ G S).
Defined.

Lemma missing_latitude_is_a_TypeError_witness :
  (forall v, ~ In ("latitude", v) [("longitude", PyFloat 4)]) /\
  get_iss_position (state_at 1 2 [Ok reply_without_latitude]) =
    (Raise TypeError,
     {| self := tracker_at 1 2; world := running_world [];
        log := [ev_requests_get URL (Ok reply_without_latitude)] |}).
Proof.
  assert (D : forall v, ~ In ("latitude", v) [("longitude", PyFloat 4)]).
  { intros v [H | []]. apply (f_equal fst) in H. discriminate H. }
  split; [ exact D | ].
  exact (missing_latitude_is_a_TypeError
           (state_at 1 2 [Ok reply_without_latitude]) reply_without_latitude
           (running_world []) [("longitude", PyFloat 4)]
           eq_refl eq_refl eq_refl D).
Defined.

Lemma update_marker_position_moves_the_marker_witness :
  marker (self (state_at 1 2 [])) = Some 0%nat /\
  fst (update_marker_position (state_at 1 2 [])) = Ok tt /\
  log (snd (update_marker_position (state_at 1 2 []))) =
    [ev_toolkit (MarkerSetPosition 0%nat (PyFloat 1) (PyFloat 2)) (Ok tt);
     ev_toolkit (MapSetPosition (PyFloat 1) (PyFloat 2)) (Ok tt)].
Proof.
  assert (M : marker (self (state_at 1 2 [])) = Some 0%nat) by reflexivity.
  assert (R : fst (update_marker_position (state_at 1 2 [])) = Ok tt) by reflexivity.
  split; [ exact M | split; [ exact R | ] ].
  exact (proj2 (proj2 (update_marker_position_moves_the_marker
                         (state_at 1 2 []) 0%nat 1 2 M eq_refl eq_refl)) R).
Defined.

Lemma update_marker_position_makes_the_marker_witness :
  marker (self state_without_marker) = None /\
  marker (self (snd (update_marker_position state_without_marker))) = Some 0%nat.
Proof.
  assert (M : marker (self state_without_marker) = None) by reflexivity.
  split; [ exact M | ].
  rewrite (update_marker_position_makes_the_marker state_without_marker 1 2
             M eq_refl eq_refl).
  reflexivity.
Defined.

Lemma initialize_marker_sets_the_marker_witness :
  initialize_marker state_without_marker =
    (Ok tt, snd (initialize_marker state_without_marker)) /\
  exists mk, marker (self (snd (initialize_marker state_without_marker))) = Some mk.
Proof.
  assert (G : initialize_marker state_without_marker =
              (Ok tt, snd (initialize_marker state_without_marker))) by reflexivity.
  split; [ exact G | ].
  destruct (initialize_marker_sets_the_marker _ _ G) as (mk & _ & H).
  exists mk. exact H.
Defined.

Lemma initialize_marker_falls_back_witness :
  map_set_marker (marker_args_at (PyFloat 1) (PyFloat 2) "darkblue")
    (world destroyed_state) = (Raise TclError, world destroyed_state) /\
  log (snd (initialize_marker destroyed_state)) =
    [ev_set_marker (marker_args_at (PyFloat 1) (PyFloat 2) "darkblue") (Raise TclError);
     ev_print "Error initializing marker: " TclError;
     ev_set_marker (marker_args_at (PyInt 0) (PyInt 0) "darkblue") (Raise TclError)].
Proof.
  assert (G : map_set_marker (marker_args_at (PyFloat 1) (PyFloat 2) "darkblue")
                (world destroyed_state) = (Raise TclError, world destroyed_state))
    by reflexivity.
  split; [ exact G | ].
  rewrite (initialize_marker_falls_back destroyed_state 1 2 TclError _
             eq_refl eq_refl G).
  reflexivity.
Defined.

Lemma change_map_ignores_unknown_names_witness :
  known_map (PyStr "Bing") = false /\
  change_map (PyStr "Bing") (state_at 1 2 []) = (Ok tt, state_at 1 2 []).
Proof.
  assert (K : known_map (PyStr "Bing") = false) by reflexivity.
  split; [ exact K | ].
  exact (change_map_ignores_unknown_names _ (state_at 1 2 []) K).
Defined.

Lemma change_map_sets_one_tile_server_witness :
  known_map (PyStr "Google satellite") = true /\
  exists url max_zoom,
    log (snd (change_map (PyStr "Google satellite") (state_at 1 2 []))) =
      [ev_toolkit (MapSetTileServer url max_zoom) (Ok tt)] /\
    max_zoom <> None.
Proof.
  assert (K : known_map (PyStr "Google satellite") = true) by reflexivity.
  split; [ exact K | ].
  destruct (change_map_sets_one_tile_server _ (state_at 1 2 []) K)
    as (url & max_zoom & E & Z).
  exists url, max_zoom. rewrite E. split; [ reflexivity | ].
  intros N. apply Z in N. apply (f_equal (fun v => match v with
                                                   | PyStr name => name
                                                   | _ => "" end)) in N.
  discriminate N.
Defined.

Lemma create_widgets_needs_a_position_witness :
  create_widgets (state_at 1 2 []) = (Ok tt, snd (create_widgets (state_at 1 2 []))) /\
  In (ev_toolkit (RootBind "<Escape>" m_quit) (Ok tt))
    (log (snd (create_widgets (state_at 1 2 [])))).
Proof.
  assert (G : create_widgets (state_at 1 2 []) =
              (Ok tt, snd (create_widgets (state_at 1 2 []))))
    by (vm_compute; reflexivity).
  split; [ exact G | ].
  destruct (create_widgets_needs_a_position _ _ G)
    as (lat & lon & _ & _ & _ & _ & _ & _ & _ & _ & _ & _ & _ & _ & _ & H).
  exact H.
Defined.

Lemma constructor_returns_a_ready_tracker_witness :
  ISSTracker 800 600 5 (tk_world [reply_3_4]) =
    (Ok (self (snd (ISSTracker 800 600 5 (tk_world [reply_3_4])))),
     snd (ISSTracker 800 600 5 (tk_world [reply_3_4]))) /\
  exists lat lon mk,
    self (snd (ISSTracker 800 600 5 (tk_world [reply_3_4]))) =
    {| width := 800; height := 600; update_interval := 5; running := false;
       update_thread := false; count := 0; marker := Some mk;
       latitude := Some lat; longitude := Some lon |}.
Proof.
  assert (G : ISSTracker 800 600 5 (tk_world [reply_3_4]) =
              (Ok (self (snd (ISSTracker 800 600 5 (tk_world [reply_3_4])))),
               snd (ISSTracker 800 600 5 (tk_world [reply_3_4]))))
    by (vm_compute; reflexivity).
  split; [ exact G | ].
  exact (proj2 (constructor_returns_a_ready_tracker _ _ _ _ _ _ G)).
Defined.

Lemma marker_is_made_once_witness :
  marker (self (state_at 1 2 [reply_3_4])) = Some 0%nat /\
  marker (self (snd (exec [Worker; Worker; Ui m_update_marker_position [];
                             Worker; Worker]
                       (Looping, state_at 1 2 [reply_3_4])))) = Some 0%nat.
Proof.
  assert (M : marker (self (state_at 1 2 [reply_3_4])) = Some 0%nat) by reflexivity.
  split; [ exact M | ].
  exact (proj1 (marker_is_made_once
                  [Worker; Worker; Ui m_update_marker_position []; Worker; Worker]
                  Looping _ _ M)).
Defined.

Lemma position_stays_set_witness :
  latitude (self (state_at 1 2 [reply_without_longitude])) <> None /\
  longitude (self (state_at 1 2 [reply_without_longitude])) <> None /\
  latitude (self (snd (exec [Worker; Worker; Ui m_quit []; Worker]
                         (Looping, state_at 1 2 [reply_without_longitude])))) <> None.
Proof.
  assert (A : latitude (self (state_at 1 2 [reply_without_longitude])) <> None)
    by discriminate.
  assert (B : longitude (self (state_at 1 2 [reply_without_longitude])) <> None)
    by discriminate.
  split; [ exact A | split; [ exact B | ] ].
  exact (proj1 (position_stays_set [Worker; Worker; Ui m_quit []; Worker]
                  Looping _ A B)).
Defined.

Lemma pass_without_error_witness :
  filter is_print (log (snd (loop_body (state_at 1 2 [reply_3_4])))) =
    filter is_print (log (state_at 1 2 [reply_3_4])) /\
  exists response lat lon,
    self (snd (loop_body (state_at 1 2 [reply_3_4]))) =
      with_count 1 (with_longitude lon (with_latitude lat (tracker_at 1 2))) /\
    List.length (log (snd (loop_body (state_at 1 2 [reply_3_4])))) = 6%nat /\
    In (ev_requests_get URL (Ok response))
      (log (snd (loop_body (state_at 1 2 [reply_3_4])))).
Proof.
  assert (P : filter is_print (log (snd (loop_body (state_at 1 2 [reply_3_4])))) =
              filter is_print (log (state_at 1 2 [reply_3_4])))
    by reflexivity.
  split; [ exact P | ].
  destruct (pass_without_error _ P) as (response & lat & lon & _ & S & L).
  exists response, lat, lon.
  split; [ exact S | ]. rewrite L. split; [ reflexivity | left; reflexivity ].
Defined.

Lemma negative_interval_never_sleeps_witness :
  update_interval (self state_with_negative_interval) < 0 /\
  filter is_sleep (log (snd (loop_body state_with_negative_interval))) = [].
Proof.
  assert (N : update_interval (self state_with_negative_interval) < 0)
    by (cbn; lia).
  split; [ exact N | ].
  exact (proj1 (negative_interval_never_sleeps _ N)).
Defined.

(** The pass with a negative interval, in full: the labels are configured,
    the callback is queued, and the sleep is an error. *)
Example pass_with_negative_interval :
  log (snd (loop_body state_with_negative_interval)) =
  [ev_requests_get URL reply_3_4;
   ev_toolkit (LblConfigure lbl_count (FStr " Count: " (PyInt 1) "" " ")) (Ok tt);
   ev_toolkit (LblConfigure lbl_lat (FStr " Latitude: " (PyFloat 3) ".4f" " ")) (Ok tt);
   ev_toolkit (LblConfigure lbl_lon (FStr " Longitude: " (PyFloat 4) ".4f" " ")) (Ok tt);
   ev_toolkit (RootAfter 0 m_update_marker_position) (Ok tt);
   ev_print "Error updating ISS position: " ValueError].
Proof. reflexivity. Qed.

(** The program from start to end: the constructor fetches (3, 4); in the
    main loop the worker makes a pass that fetches (5, 6), the queued marker
    update runs, the user closes the window while the next pass is in flight,
    that pass fetches (7, 8) and finds its labels gone, and the next test ends
    the loop. [main] returns with the flag down and a count of two, after three
    successful fetches. *)
Example main_until_quit :
  main session (tk_world session_replies) =
    (Ok tt, snd (main session (tk_world session_replies))) /\
  self (snd (main session (tk_world session_replies))) =
    {| width := 2048; height := 1536; update_interval := 10; running := false;
       update_thread := true; count := 2; marker := Some 0%nat;
       latitude := Some 7%float; longitude := Some 8%float |} /\
  fetched (log (snd (main session (tk_world session_replies)))) = 3.
Proof. vm_compute. repeat split. Qed.
